(** * M5 data loading and reshaping

    A shallow embedding of [src/data/load_data.py]: the loader class
    [M5DataLoader], the reshaper [melt_sales_data], the hierarchy builder
    [create_hierarchical_structure] and the two convenience functions.

    The table library the module is written against is modelled by the
    operations on frames below: a frame is a list of column labels and a
    list of rows, each row carrying its index label.  Every operation
    follows the documented behaviour of the call the source makes (labels
    are looked up by name, a missing label is a [KeyError]). *)

From Stdlib Require Import List String Ascii ZArith Bool Lia Permutation Sorted.
From Stdlib Require Import OrderedTypeEx.
Import ListNotations.

Local Open Scope string_scope.
Local Open Scope list_scope.

(* ================================================================== *)
(** ** Cells, errors, results *)
(* ================================================================== *)

(** A cell of a table.  [CDate t] is a timestamp at day resolution, [t] the
    number of days since 1970-01-01; [CNA] is the missing value (NaN, NaT). *)
Inductive cell : Type :=
| CStr (s : string)
| CInt (z : Z)
| CBool (b : bool)
| CDate (t : Z)
| CNA.

Definition cell_eqb (a b : cell) : bool :=
  match a, b with
  | CStr s, CStr t => String.eqb s t
  | CInt x, CInt y => Z.eqb x y
  | CBool x, CBool y => Bool.eqb x y
  | CDate x, CDate y => Z.eqb x y
  | CNA, CNA => true
  | _, _ => false
  end.

(** The exceptions the module can raise. *)
Inductive error : Type :=
| KeyError (label : string)
| ValueError (msg : string)
| AttributeError (name : string)
| FileNotFoundError (path : string)
| ParserError (text : string).

Inductive result (A : Type) : Type :=
| Ok (a : A)
| Err (e : error).
Arguments Ok {A} a.
Arguments Err {A} e.

Definition rbind {A B} (r : result A) (k : A -> result B) : result B :=
  match r with
  | Ok a => k a
  | Err e => Err e
  end.

Declare Scope result_scope.
Delimit Scope result_scope with res.
Notation "x <- e ;; k" := (rbind e (fun x => k))
  (at level 61, e at next level, right associativity) : result_scope.

Fixpoint rmap {A B} (f : A -> result B) (l : list A) : result (list B) :=
  match l with
  | [] => Ok []
  | a :: t =>
      (b <- f a ;;
       bs <- rmap f t ;;
       Ok (b :: bs))%res
  end.

(* ================================================================== *)
(** ** Frames *)
(* ================================================================== *)

(** A row: its index label and its cells, aligned with the frame's columns. *)
Definition row : Type := cell * list cell.

Record DataFrame : Type := mkDataFrame {
  columns : list string;
  rows : list row
}.

Definition shape (df : DataFrame) : nat * nat :=
  (List.length (rows df), List.length (columns df)).

Definition cells_of (r : row) : list cell := snd r.

(** Cell of a row at a column position; a short row reads as missing. *)
Definition cell_pos (j : nat) (r : row) : cell := nth j (cells_of r) CNA.

(** All positions of a label among the columns, in column order. *)
Fixpoint positions_from (n : nat) (c : string) (cols : list string) : list nat :=
  match cols with
  | [] => []
  | x :: t =>
      if String.eqb x c then n :: positions_from (S n) c t
      else positions_from (S n) c t
  end.

Definition positions (c : string) (cols : list string) : list nat :=
  positions_from 0 c cols.

(** The position of a label that must denote exactly one column. *)
Definition locate (c : string) (cols : list string) : result nat :=
  match positions c cols with
  | [] => Err (KeyError c)
  | [j] => Ok j
  | _ :: _ :: _ => Err (ValueError c)
  end.

Definition has_label (c : string) (cols : list string) : bool :=
  existsb (String.eqb c) cols.

(** [RangeIndex]: the labels 0, 1, 2, ... *)
Definition range_index (n : nat) : list cell :=
  map (fun i => CInt (Z.of_nat i)) (seq 0 n).

Definition with_range_index (cs : list (list cell)) : list row :=
  combine (range_index (List.length cs)) cs.

(** [df.reset_index(drop=True)] *)
Definition reset_index (df : DataFrame) : DataFrame :=
  mkDataFrame (columns df) (with_range_index (map cells_of (rows df))).

(** A series: index labels paired with values. *)
Definition Series : Type := list (cell * cell).

(** [df[c]] for a single label, used as a series.  With an ambiguous label
    the library returns a frame, on which the series methods the source
    calls next do not exist. *)
Definition getitem (df : DataFrame) (c : string) : result Series :=
  match positions c (columns df) with
  | [] => Err (KeyError c)
  | [j] => Ok (map (fun r => (fst r, cell_pos j r)) (rows df))
  | _ :: _ :: _ => Err (AttributeError c)
  end.

(** [df[[c1; ...; cn]]]: every column carrying one of the labels. *)
Definition select_positions (cols : list string) (labels : list string)
  : result (list nat) :=
  (ps <- rmap (fun c => match positions c cols with
                        | [] => Err (KeyError c)
                        | js => Ok js
                        end) labels ;;
   Ok (List.concat ps))%res.

Definition select (df : DataFrame) (labels : list string) : result DataFrame :=
  (ps <- select_positions (columns df) labels ;;
   Ok (mkDataFrame (map (fun j => nth j (columns df) "") ps)
                   (map (fun r => (fst r, map (fun j => cell_pos j r) ps))
                        (rows df))))%res.

(* ------------------------------------------------------------------ *)
(** *** Distinct values *)

Fixpoint mem {A} (eqb : A -> A -> bool) (x : A) (l : list A) : bool :=
  match l with
  | [] => false
  | y :: t => eqb x y || mem eqb x t
  end.

(** Distinct elements in order of first appearance, [seen] being the
    elements already met. *)
Fixpoint distinct_from {A B} (eqb : B -> B -> bool) (key : A -> B)
    (seen : list B) (l : list A) : list A :=
  match l with
  | [] => []
  | x :: t =>
      if mem eqb (key x) seen then distinct_from eqb key seen t
      else x :: distinct_from eqb key (key x :: seen) t
  end.

(** [series.unique().tolist()] *)
Definition unique (s : Series) : list cell :=
  distinct_from cell_eqb (fun v => v) [] (map snd s).

Fixpoint cells_eqb (a b : list cell) : bool :=
  match a, b with
  | [], [] => true
  | x :: a', y :: b' => cell_eqb x y && cells_eqb a' b'
  | _, _ => false
  end.

(** [df.drop_duplicates()]: the first row of every distinct cell tuple. *)
Definition drop_duplicates (df : DataFrame) : DataFrame :=
  mkDataFrame (columns df) (distinct_from cells_eqb cells_of [] (rows df)).

(* ------------------------------------------------------------------ *)
(** *** Dictionaries *)

(** A Python dictionary: insertion ordered, one entry per key; assigning an
    existing key replaces its value in place. *)
Fixpoint dict_set {K V} (eqb : K -> K -> bool) (k : K) (v : V)
    (d : list (K * V)) : list (K * V) :=
  match d with
  | [] => [(k, v)]
  | (k', v') :: t =>
      if eqb k k' then (k', v) :: t else (k', v') :: dict_set eqb k v t
  end.

Fixpoint dict_get {K V} (eqb : K -> K -> bool) (k : K) (d : list (K * V))
  : option V :=
  match d with
  | [] => None
  | (k', v') :: t => if eqb k k' then Some v' else dict_get eqb k t
  end.

Definition dict_of_pairs {K V} (eqb : K -> K -> bool) (l : list (K * V))
  : list (K * V) :=
  fold_left (fun d kv => dict_set eqb (fst kv) (snd kv) d) l [].

Definition dict_keys {K V} (d : list (K * V)) : list K := map fst d.

(* ------------------------------------------------------------------ *)
(** *** Re-indexing and conversion to dictionaries *)

Definition remove_nth {A} (j : nat) (l : list A) : list A :=
  firstn j l ++ skipn (S j) l.

(** [df.set_index(c)]: the column becomes the index and leaves the columns. *)
Definition set_index (df : DataFrame) (c : string) : result DataFrame :=
  (j <- locate c (columns df) ;;
   Ok (mkDataFrame (remove_nth j (columns df))
                   (map (fun r => (cell_pos j r, remove_nth j (cells_of r)))
                        (rows df))))%res.

(** [series.to_dict()]: index label to value, a repeated label keeping the
    value met last. *)
Definition series_to_dict (s : Series) : list (cell * cell) :=
  dict_of_pairs cell_eqb s.

(** [df.to_dict('index')]: index label to the row as a dictionary of its
    columns; the library refuses an index with a repeated label. *)
Definition to_dict_index (df : DataFrame)
  : result (list (cell * list (string * cell))) :=
  let idx := map fst (rows df) in
  if Nat.eqb (List.length (distinct_from cell_eqb (fun v => v) [] idx))
              (List.length idx)
  then Ok (dict_of_pairs cell_eqb
             (map (fun r => (fst r,
                             dict_of_pairs String.eqb
                               (combine (columns df) (cells_of r))))
                  (rows df)))
  else Err (ValueError "DataFrame index must be unique for orient='index'.").

(* ================================================================== *)
(** ** Ordering of cells and stable sorting *)
(* ================================================================== *)

(** Missing values sort last; within a kind the order is the natural one
    (strings by code unit).  The rank between kinds only makes the order
    total: the key columns of the tables this module handles hold one kind
    of value. *)
Definition kind_rank (a : cell) : Z :=
  match a with
  | CBool _ => 0
  | CInt _ => 1
  | CDate _ => 2
  | CStr _ => 3
  | CNA => 4
  end.

Definition cell_compare (a b : cell) : comparison :=
  match a, b with
  | CStr s, CStr t => String.compare s t
  | CInt x, CInt y => Z.compare x y
  | CBool x, CBool y => Bool.compare x y
  | CDate x, CDate y => Z.compare x y
  | _, _ => Z.compare (kind_rank a) (kind_rank b)
  end.

(** Lexicographic comparison of key tuples. *)
Fixpoint keys_compare (k1 k2 : list cell) : comparison :=
  match k1, k2 with
  | [], [] => Eq
  | [], _ :: _ => Lt
  | _ :: _, [] => Gt
  | a :: k1', b :: k2' =>
      match cell_compare a b with
      | Eq => keys_compare k1' k2'
      | c => c
      end
  end.

Definition keys_leb (k1 k2 : list cell) : bool :=
  match keys_compare k1 k2 with
  | Gt => false
  | _ => true
  end.

Fixpoint insert_sorted {A} (leb : A -> A -> bool) (x : A) (l : list A)
  : list A :=
  match l with
  | [] => [x]
  | y :: t => if leb x y then x :: y :: t else y :: insert_sorted leb x t
  end.

(** Insertion from the right end: an element is placed before the elements
    it does not exceed, so equal keys keep their order. *)
Definition stable_sort {A} (leb : A -> A -> bool) (l : list A) : list A :=
  fold_right (insert_sorted leb) [] l.

Definition row_key (ps : list nat) (r : row) : list cell :=
  map (fun j => cell_pos j r) ps.

(** [df.sort_values(by)] with several keys: ascending, missing values last,
    rows with equal keys in their previous order. *)
Definition sort_values (df : DataFrame) (by_ : list string)
  : result DataFrame :=
  (ps <- rmap (fun c => locate c (columns df)) by_ ;;
   Ok (mkDataFrame (columns df)
         (stable_sort (fun r1 r2 => keys_leb (row_key ps r1) (row_key ps r2))
                      (rows df))))%res.

(* ================================================================== *)
(** ** Reshaping: melt and left join *)
(* ================================================================== *)

(** [pd.melt(frame, id_vars=..., value_vars=..., var_name=..., value_name=...)]:
    one output row per value column and input row, value column by value
    column, holding the identifier cells, the value column's label and the
    cell.  The value label must not be a column of the frame already; an
    identifier column that carries the variable label is overwritten by the
    variable column. *)
Definition melt (frame : DataFrame) (id_vars value_vars : list string)
    (var_name value_name : string) : result DataFrame :=
  if has_label value_name (columns frame)
  then Err (ValueError value_name)
  else
    (ips <- rmap (fun c => locate c (columns frame)) id_vars ;;
     vps <- rmap (fun c => locate c (columns frame)) value_vars ;;
     Ok (mkDataFrame
           (id_vars ++ [var_name; value_name])
           (with_range_index
              (flat_map
                 (fun v : string * nat =>
                    map (fun r =>
                           map (fun i : string * nat =>
                                  if String.eqb (fst i) var_name
                                  then CStr (fst v)
                                  else cell_pos (snd i) r)
                               (combine id_vars ips)
                           ++ [CStr (fst v); cell_pos (snd v) r])
                        (rows frame))
                 (combine value_vars vps)))))%res.

Definition is_str (a : cell) : bool :=
  match a with CStr _ => true | _ => false end.

Definition is_bool (a : cell) : bool :=
  match a with CBool _ => true | _ => false end.

(** The library refuses to join a key column of strings with a key column
    that holds no string at all (a numeric or date column), unless one of
    the two sides is empty or the other side is boolean. *)
Definition keys_mergeable (lk rk : list cell) : bool :=
  match lk, rk with
  | [], _ => true
  | _, [] => true
  | _, _ =>
      negb (forallb is_str lk) || existsb is_str rk || forallb is_bool rk
  end.

(** [left.merge(right, on=key, how='left')]: every left row in order, once
    per right row with an equal key (in right order), or once with missing
    right cells when no right row matches.  Other labels present on both
    sides get the suffixes [_x] and [_y]. *)
Definition merge_left (left right : DataFrame) (on : string)
  : result DataFrame :=
  (lp <- locate on (columns left) ;;
   rp <- locate on (columns right) ;;
   if keys_mergeable (map (cell_pos lp) (rows left))
                     (map (cell_pos rp) (rows right))
   then
     let lother := remove_nth lp (columns left) in
     let rother := remove_nth rp (columns right) in
     let lcols :=
       map (fun c => if negb (String.eqb c on) && has_label c rother
                     then (c ++ "_x")%string else c) (columns left) in
     let rcols :=
       map (fun c => if has_label c lother then (c ++ "_y")%string else c)
           rother in
     let joined (l : row) : list (list cell) :=
       match filter (fun r => cell_eqb (cell_pos rp r) (cell_pos lp l))
                    (rows right) with
       | [] => [cells_of l ++ map (fun _ => CNA) rother]
       | ms => map (fun r => cells_of l ++ remove_nth rp (cells_of r)) ms
       end in
     Ok (mkDataFrame (lcols ++ rcols)
                     (with_range_index (flat_map joined (rows left))))
   else Err (ValueError on))%res.

(* ================================================================== *)
(** ** The hierarchy *)
(* ================================================================== *)

(** The dictionary [create_hierarchical_structure] returns: its keys are
    fixed, so it is a record. *)
Record Hierarchy : Type := mkHierarchy {
  states : list cell;
  stores : list cell;
  categories : list cell;
  departments : list cell;
  items : list cell;
  store_state_mapping : list (cell * cell);
  item_hierarchy : list (cell * list (string * cell))
}.

Definition create_hierarchical_structure (sales_df : DataFrame)
  : result Hierarchy :=
  (state_id <- getitem sales_df "state_id" ;;
   store_id <- getitem sales_df "store_id" ;;
   cat_id <- getitem sales_df "cat_id" ;;
   dept_id <- getitem sales_df "dept_id" ;;
   item_id <- getitem sales_df "item_id" ;;
   (* store-state mapping *)
   pairs <- select sales_df ["store_id"; "state_id"] ;;
   let store_state_map := drop_duplicates pairs in
   indexed <- set_index store_state_map "store_id" ;;
   mapped <- getitem indexed "state_id" ;;
   (* item hierarchy mapping *)
   triples <- select sales_df ["item_id"; "dept_id"; "cat_id"] ;;
   let item_hierarchy := drop_duplicates triples in
   by_item <- set_index item_hierarchy "item_id" ;;
   item_map <- to_dict_index by_item ;;
   Ok (mkHierarchy (unique state_id) (unique store_id) (unique cat_id)
                   (unique dept_id) (unique item_id)
                   (series_to_dict mapped) item_map))%res.

(* ================================================================== *)
(** ** Calendar arithmetic *)
(* ================================================================== *)

(** Year, month and day of a day count since 1970-01-01 (proleptic
    Gregorian calendar), as [.dt.year], [.dt.month] and [.dt.day] give. *)
Definition civil_of_days (t : Z) : Z * Z * Z :=
  let z := (t + 719468)%Z in
  let era := (z / 146097)%Z in
  let doe := (z - era * 146097)%Z in
  let yoe := ((doe - doe / 1460 + doe / 36524 - doe / 146096) / 365)%Z in
  let doy := (doe - (365 * yoe + yoe / 4 - yoe / 100))%Z in
  let mp := ((5 * doy + 2) / 153)%Z in
  let d := (doy - (153 * mp + 2) / 5 + 1)%Z in
  let m := (if (mp <? 10)%Z then mp + 3 else mp - 9)%Z in
  let y := (yoe + era * 400 + (if (m <=? 2)%Z then 1 else 0))%Z in
  (y, m, d).

Definition dt_year (a : cell) : cell :=
  match a with
  | CDate t => CInt (fst (fst (civil_of_days t)))
  | _ => CNA
  end.

Definition dt_month (a : cell) : cell :=
  match a with
  | CDate t => CInt (snd (fst (civil_of_days t)))
  | _ => CNA
  end.

Definition dt_day (a : cell) : cell :=
  match a with
  | CDate t => CInt (snd (civil_of_days t))
  | _ => CNA
  end.

(** [.dt.dayofweek]: Monday is 0; 1970-01-01 was a Thursday. *)
Definition dt_dayofweek (a : cell) : cell :=
  match a with
  | CDate t => CInt ((t + 3) mod 7)
  | _ => CNA
  end.

Definition dt_quarter (a : cell) : cell :=
  match a with
  | CDate t => CInt ((snd (fst (civil_of_days t)) - 1) / 3 + 1)
  | _ => CNA
  end.

(** [series.isin(values)] *)
Definition isin (values : list cell) (a : cell) : cell :=
  CBool (mem cell_eqb a values).

(** [series.astype(int)] on the cells the module converts. *)
Definition astype_int (a : cell) : result cell :=
  match a with
  | CBool b => Ok (CInt (if b then 1 else 0))
  | CInt z => Ok (CInt z)
  | CStr s => Err (ValueError s)
  | CDate _ => Err (ValueError "datetime")
  | CNA => Err (ValueError "NA")
  end.

(** [df[c] = values]: an existing column is replaced in place, a new one is
    appended. *)
Fixpoint set_nth {A} (j : nat) (v : A) (l : list A) : list A :=
  match j, l with
  | _, [] => []
  | O, _ :: t => v :: t
  | S j', x :: t => x :: set_nth j' v t
  end.

Definition setitem (df : DataFrame) (c : string) (values : list cell)
  : DataFrame :=
  match positions c (columns df) with
  | [] =>
      mkDataFrame (columns df ++ [c])
        (map (fun rv : row * cell => (fst (fst rv), cells_of (fst rv) ++ [snd rv]))
             (combine (rows df) values))
  | js =>
      mkDataFrame (columns df)
        (map (fun rv : row * cell =>
                (fst (fst rv),
                 fold_left (fun cs j => set_nth j (snd rv) cs) js
                           (cells_of (fst rv))))
             (combine (rows df) values))
  end.

(* ================================================================== *)
(** ** The world: files and log *)
(* ================================================================== *)

(** What the module does besides computing: it reads files and writes log
    records.  Both are recorded, in order, in the trace. *)
Inductive event : Type :=
| ReadCsv (path : string)
| LogInfo (msg : string)
| LogInfoPath (msg path : string)
| LogInfoShape (msg : string) (shp : nat * nat).

(** [files p] is what reading the file at path [p] gives: the table it
    parses to, or the exception the reader raises (no such file, a file
    that does not parse). *)
Record World : Type := mkWorld {
  files : string -> result DataFrame;
  trace : list event
}.

(** Computations that may raise and that act on the world.  An exception
    stops the computation; what was done before it stays done. *)
Definition M (A : Type) : Type := World -> result A * World.

Definition ret {A} (a : A) : M A := fun w => (Ok a, w).

Definition bind {A B} (m : M A) (k : A -> M B) : M B :=
  fun w =>
    match m w with
    | (Ok a, w') => k a w'
    | (Err e, w') => (Err e, w')
    end.

Definition lift {A} (r : result A) : M A := fun w => (r, w).

Definition emit (e : event) : M unit :=
  fun w => (Ok tt, mkWorld (files w) (trace w ++ [e])).

Declare Scope m_scope.
Delimit Scope m_scope with M.
Notation "x <- e ;; k" := (bind e (fun x => k))
  (at level 61, e at next level, right associativity) : m_scope.
Notation "e ;; k" := (bind e (fun _ => k))
  (at level 61, right associativity) : m_scope.

(** [pd.read_csv(path)] *)
Definition read_csv (path : string) : M DataFrame :=
  (emit (ReadCsv path) ;;
   fun w => (files w path, w))%M.

(** [logger.info] *)
Definition logger_info (msg : string) : M unit := emit (LogInfo msg).
Definition logger_info_path (msg path : string) : M unit :=
  emit (LogInfoPath msg path).
Definition logger_info_shape (msg : string) (df : DataFrame) : M unit :=
  emit (LogInfoShape msg (shape df)).

(** [d[k]] on a dictionary with string keys. *)
Definition dict_getitem {V} (d : list (string * V)) (k : string) : result V :=
  match dict_get String.eqb k d with
  | Some v => Ok v
  | None => Err (KeyError k)
  end.

Definition ends_with_sep (s : string) : bool :=
  match String.length s with
  | O => false
  | S n => String.eqb (substring n 1 s) "/"
  end.

(** [os.path.join(a, b)] *)
Definition path_join (a b : string) : string :=
  if String.prefix "/" b then b
  else if String.eqb a "" || ends_with_sep a then (a ++ b)%string
  else (a ++ "/" ++ b)%string.

(* ================================================================== *)
(** ** The loader *)
(* ================================================================== *)

Record M5DataLoader : Type := mkM5DataLoader {
  data_dir : string;
  data_files : list (string * string)
}.

(** [M5DataLoader.__init__] *)
Definition M5DataLoader_init (data_dir : string) : M5DataLoader :=
  mkM5DataLoader data_dir
    [("calendar", "calendar.csv");
     ("sales_train_validation", "sales_train_validation.csv");
     ("sales_train_evaluation", "sales_train_evaluation.csv");
     ("sample_submission", "sample_submission.csv");
     ("sell_prices", "sell_prices.csv")].

Definition _get_file_path (self : M5DataLoader) (filename : string) : string :=
  path_join (data_dir self) filename.

Section Loader.

(** The library's date parser: the day a text denotes, [None] when the text
    is not a date. *)
Variable parse_date : string -> option Z.

(** [pd.to_datetime] on one cell; an integer is a count of nanoseconds. *)
Definition to_datetime (a : cell) : result cell :=
  match a with
  | CStr s =>
      match parse_date s with
      | Some t => Ok (CDate t)
      | None => Err (ParserError s)
      end
  | CInt z => Ok (CDate (z / 86400000000000))
  | CDate t => Ok (CDate t)
  | CNA => Ok CNA
  | CBool _ => Err (ParserError "bool")
  end.

Definition load_calendar (self : M5DataLoader) : M DataFrame :=
  (name <- lift (dict_getitem (data_files self) "calendar") ;;
   let file_path := _get_file_path self name in
   logger_info_path "Loading calendar data from" file_path ;;
   calendar <- read_csv file_path ;;
   (* convert the date column *)
   date <- lift (getitem calendar "date") ;;
   parsed <- lift (rmap to_datetime (map snd date)) ;;
   let calendar := setitem calendar "date" parsed in
   (* additional time features *)
   date <- lift (getitem calendar "date") ;;
   let calendar := setitem calendar "year" (map dt_year (map snd date)) in
   date <- lift (getitem calendar "date") ;;
   let calendar := setitem calendar "month" (map dt_month (map snd date)) in
   date <- lift (getitem calendar "date") ;;
   let calendar := setitem calendar "day" (map dt_day (map snd date)) in
   date <- lift (getitem calendar "date") ;;
   let calendar :=
     setitem calendar "dayofweek" (map dt_dayofweek (map snd date)) in
   date <- lift (getitem calendar "date") ;;
   let calendar := setitem calendar "quarter" (map dt_quarter (map snd date)) in
   dayofweek <- lift (getitem calendar "dayofweek") ;;
   flags <- lift (rmap astype_int
                       (map (isin [CInt 5; CInt 6]) (map snd dayofweek))) ;;
   let calendar := setitem calendar "is_weekend" flags in
   logger_info_shape "Calendar data loaded:" calendar ;;
   ret calendar)%M.

Definition load_sales_data (self : M5DataLoader) (validation : bool)
  : M DataFrame :=
  (let file_key := if validation then "sales_train_validation"
                   else "sales_train_evaluation" in
   name <- lift (dict_getitem (data_files self) file_key) ;;
   let file_path := _get_file_path self name in
   logger_info_path "Loading sales data from" file_path ;;
   sales <- read_csv file_path ;;
   logger_info_shape "Sales data loaded:" sales ;;
   ret sales)%M.

Definition load_prices (self : M5DataLoader) : M DataFrame :=
  (name <- lift (dict_getitem (data_files self) "sell_prices") ;;
   let file_path := _get_file_path self name in
   logger_info_path "Loading price data from" file_path ;;
   prices <- read_csv file_path ;;
   logger_info_shape "Price data loaded:" prices ;;
   ret prices)%M.

Definition load_sample_submission (self : M5DataLoader) : M DataFrame :=
  (name <- lift (dict_getitem (data_files self) "sample_submission") ;;
   let file_path := _get_file_path self name in
   logger_info_path "Loading sample submission from" file_path ;;
   submission <- read_csv file_path ;;
   logger_info_shape "Sample submission loaded:" submission ;;
   ret submission)%M.

Definition load_all_data (self : M5DataLoader) (validation : bool)
  : M (list (string * DataFrame)) :=
  (logger_info "Loading all M5 competition data..." ;;
   calendar <- load_calendar self ;;
   sales <- load_sales_data self validation ;;
   prices <- load_prices self ;;
   sample_submission <- load_sample_submission self ;;
   let data := [("calendar", calendar); ("sales", sales);
                ("prices", prices); ("sample_submission", sample_submission)] in
   logger_info "All data loaded successfully!" ;;
   ret data)%M.

End Loader.

(** Label splitting of [melt_sales_data]: [col.startswith('d_')]. *)
Definition startswith (col pre : string) : bool := String.prefix pre col.

Definition melt_sales_data (sales_df calendar_df : DataFrame) : M DataFrame :=
  (logger_info "Melting sales data from wide to long format..." ;;
   let id_cols :=
     filter (fun col => negb (startswith col "d_")) (columns sales_df) in
   let day_cols :=
     filter (fun col => startswith col "d_") (columns sales_df) in
   melted <- lift (melt sales_df id_cols day_cols "d" "sales") ;;
   dates <- lift (select calendar_df ["d"; "date"]) ;;
   melted <- lift (merge_left melted dates "d") ;;
   melted <- lift (sort_values melted ["item_id"; "date"]) ;;
   let melted := reset_index melted in
   logger_info_shape "Melted sales data:" melted ;;
   ret melted)%M.

(** [load_data] *)
Definition load_data (parse_date : string -> option Z) (data_dir : string)
    (validation : bool) : M (list (string * DataFrame)) :=
  let loader := M5DataLoader_init data_dir in
  load_all_data parse_date loader validation.

Definition load_and_prepare_data (parse_date : string -> option Z)
    (data_dir : string) (validation melt_sales : bool)
  : M (list (string * DataFrame) * Hierarchy) :=
  (let loader := M5DataLoader_init data_dir in
   data <- load_all_data parse_date loader validation ;;
   sales <- lift (dict_getitem data "sales") ;;
   hierarchy <- lift (create_hierarchical_structure sales) ;;
   data <- (if melt_sales
            then
              (sales <- lift (dict_getitem data "sales") ;;
               calendar <- lift (dict_getitem data "calendar") ;;
               melted <- melt_sales_data sales calendar ;;
               ret (dict_set String.eqb "sales_melted" melted data))
            else ret data) ;;
   ret (data, hierarchy))%M.

(* ================================================================== *)
(** ** Vocabulary of the statements *)
(* ================================================================== *)

(** Position of the first column carrying a label. *)
Definition pos_of (c : string) (cols : list string) : nat :=
  hd 0%nat (positions c cols).

(** Cell of a row of [df] under a label. *)
Definition cell_at (df : DataFrame) (c : string) (r : row) : cell :=
  cell_pos (pos_of c (columns df)) r.

Definition column_cells (df : DataFrame) (c : string) : list cell :=
  map (cell_at df c) (rows df).

(** The two label lists [melt_sales_data] computes. *)
Definition id_cols (sales_df : DataFrame) : list string :=
  filter (fun col => negb (startswith col "d_")) (columns sales_df).

Definition day_cols (sales_df : DataFrame) : list string :=
  filter (fun col => startswith col "d_") (columns sales_df).

Fixpoint nodupb (l : list string) : bool :=
  match l with
  | [] => true
  | x :: t => negb (has_label x t) && nodupb t
  end.

(** The shape a frame has in the table library: distinct labels (as the
    file reader guarantees) and one cell per column in every row. *)
Definition frame_ok (df : DataFrame) : bool :=
  nodupb (columns df)
  && forallb (fun r => Nat.eqb (List.length (cells_of r))
                               (List.length (columns df)))
             (rows df).

Definition is_na (a : cell) : bool :=
  match a with CNA => true | _ => false end.

(** A column holding one kind of value, missing values apart. *)
Definition one_kind (l : list cell) : bool :=
  forallb (fun a =>
             forallb (fun b => is_na a || is_na b
                               || Z.eqb (kind_rank a) (kind_rank b)) l) l.

(** A column of text: empty, or holding at least one string. *)
Definition text_column (l : list cell) : bool :=
  match l with
  | [] => true
  | _ => existsb is_str l
  end.

(** A sales table [melt_sales_data] accepts: it has an [item_id] column and
    none of the labels the reshaping introduces. *)
Definition sales_ok (s : DataFrame) : bool :=
  frame_ok s
  && has_label "item_id" (columns s)
  && negb (has_label "d" (columns s))
  && negb (has_label "sales" (columns s))
  && negb (has_label "date" (columns s))
  && one_kind (column_cells s "item_id").

(** A calendar [melt_sales_data] accepts: it has the columns [d], a text
    column, and [date]. *)
Definition calendar_ok (c : DataFrame) : bool :=
  frame_ok c
  && has_label "d" (columns c)
  && has_label "date" (columns c)
  && text_column (column_cells c "d")
  && one_kind (column_cells c "date").


(** Sum of the integer cells of a list, missing values skipped. *)
Definition sum_cells (l : list cell) : Z :=
  fold_right (fun a acc => match a with CInt z => (z + acc)%Z | _ => acc end)
             0%Z l.

(** The [sales] cells of the long rows of one item on one day. *)
Definition group_sales (long : DataFrame) (item : cell) (d : string)
  : list cell :=
  map (cell_at long "sales")
      (filter (fun r => cell_eqb (cell_at long "item_id" r) item
                        && cell_eqb (cell_at long "d" r) (CStr d))
              (rows long)).

(** State of the last row of the table in which a store appears. *)
Definition last_seen_state (s : DataFrame) (store : cell) : option cell :=
  fold_left (fun acc r => if cell_eqb (cell_at s "store_id" r) store
                          then Some (cell_at s "state_id" r) else acc)
            (rows s) None.

(** Value paired with the last occurrence of a key in a list of pairs. *)
Definition last_value (k : cell) (l : list (cell * cell)) : option cell :=
  fold_left (fun acc p => if cell_eqb k (fst p) then Some (snd p) else acc)
            l None.

(** The distinct (store, state) pairs of a table in order of first
    appearance. *)
Definition store_state_pairs (s : DataFrame) : list (cell * cell) :=
  distinct_from cells_eqb (fun p : cell * cell => [fst p; snd p]) []
    (map (fun r => (cell_at s "store_id" r, cell_at s "state_id" r)) (rows s)).

(** [u] lists the distinct values of [l] in order of first appearance: the
    values standing before a value in [u] are those met in [l] before it. *)
Definition first_appearance_order (l u : list cell) : Prop :=
  NoDup u
  /\ (forall x, In x u <-> In x l)
  /\ (forall l1 x l2, l = l1 ++ x :: l2 -> ~ In x l1 ->
        exists u1 u2, u = u1 ++ x :: u2 /\ (forall y, In y u1 <-> In y l1)).

(** No item of the table is listed under two departments or categories. *)
Definition item_determines_group (s : DataFrame) : Prop :=
  forall r1 r2, In r1 (rows s) -> In r2 (rows s) ->
    cell_at s "item_id" r1 = cell_at s "item_id" r2 ->
    cell_at s "dept_id" r1 = cell_at s "dept_id" r2
    /\ cell_at s "cat_id" r1 = cell_at s "cat_id" r2.

Definition id_labels : list string :=
  ["state_id"; "store_id"; "cat_id"; "dept_id"; "item_id"].

(** Files read, in order, according to a trace. *)
Fixpoint reads_of (t : list event) : list string :=
  match t with
  | [] => []
  | ReadCsv p :: t' => p :: reads_of t'
  | _ :: t' => reads_of t'
  end.

(** The four files [load_all_data] reads, in the order it reads them. *)
Definition load_paths (self : M5DataLoader) (validation : bool)
  : list string :=
  [_get_file_path self "calendar.csv";
   _get_file_path self (if validation then "sales_train_validation.csv"
                        else "sales_train_evaluation.csv");
   _get_file_path self "sell_prices.csv";
   _get_file_path self "sample_submission.csv"].

(** The distinct (item, department, category) triples of a table in order
    of first appearance, and the frame indexed by item made of them. *)
Definition item_triples (s : DataFrame) : list (list cell) :=
  distinct_from cells_eqb (fun t : list cell => t) []
    (map (fun r => [cell_at s "item_id" r; cell_at s "dept_id" r;
                     cell_at s "cat_id" r]) (rows s)).

Definition item_groups (s : DataFrame) : DataFrame :=
  mkDataFrame ["dept_id"; "cat_id"]
    (map (fun t : list cell => (nth 0 t CNA, tl t)) (item_triples s)).

(* ------------------------------------------------------------------ *)
(** *** Example tables *)

Definition frame_of (cols : list string) (cs : list (list cell)) : DataFrame :=
  mkDataFrame cols (with_range_index cs).

(** One store listed under CA, then TX, then CA again. *)
Definition sales_store_moves : DataFrame :=
  frame_of ["item_id"; "dept_id"; "cat_id"; "store_id"; "state_id"]
    [[CStr "I1"; CStr "D1"; CStr "C1"; CStr "S1"; CStr "CA"];
     [CStr "I2"; CStr "D1"; CStr "C1"; CStr "S1"; CStr "TX"];
     [CStr "I3"; CStr "D1"; CStr "C1"; CStr "S1"; CStr "CA"]].

(** One item listed under two departments. *)
Definition sales_item_moves : DataFrame :=
  frame_of ["item_id"; "dept_id"; "cat_id"; "store_id"; "state_id"]
    [[CStr "I1"; CStr "D1"; CStr "C1"; CStr "S1"; CStr "CA"];
     [CStr "I1"; CStr "D2"; CStr "C1"; CStr "S2"; CStr "CA"]].

(** The columns [load_calendar] derives from a parsed calendar file. *)
Definition calendar_features (parse_date : string -> option Z)
    (calendar : DataFrame) : result DataFrame :=
  (date <- getitem calendar "date" ;;
   parsed <- rmap (to_datetime parse_date) (map snd date) ;;
   let calendar := setitem calendar "date" parsed in
   date <- getitem calendar "date" ;;
   let calendar := setitem calendar "year" (map dt_year (map snd date)) in
   date <- getitem calendar "date" ;;
   let calendar := setitem calendar "month" (map dt_month (map snd date)) in
   date <- getitem calendar "date" ;;
   let calendar := setitem calendar "day" (map dt_day (map snd date)) in
   date <- getitem calendar "date" ;;
   let calendar :=
     setitem calendar "dayofweek" (map dt_dayofweek (map snd date)) in
   date <- getitem calendar "date" ;;
   let calendar := setitem calendar "quarter" (map dt_quarter (map snd date)) in
   dayofweek <- getitem calendar "dayofweek" ;;
   flags <- rmap astype_int
                 (map (isin [CInt 5; CInt 6]) (map snd dayofweek)) ;;
   Ok (setitem calendar "is_weekend" flags))%res.

(** The world after some more events. *)
Definition after (w : World) (t : list event) : World :=
  mkWorld (files w) (trace w ++ t).

(** A computation that only reads the files: from worlds with the same
    files it returns the same result, it leaves the files as they are and
    adds the same events to the trace. *)
Definition reader {A} (m : M A) : Prop :=
  forall w, exists t, forall w',
    files w' = files w -> m w' = (fst (m w), after w' t).

(** The files of the examples. *)
Definition calendar_file : DataFrame :=
  frame_of ["date"; "wm_yr_wk"; "weekday"; "d"]
    [[CStr "2011-01-29"; CInt 11101; CStr "Saturday"; CStr "d_1"];
     [CStr "2011-01-30"; CInt 11101; CStr "Sunday"; CStr "d_2"];
     [CStr "2011-01-31"; CInt 11101; CStr "Monday"; CStr "d_3"]].

Definition sales_file : DataFrame :=
  frame_of ["id"; "item_id"; "dept_id"; "cat_id"; "store_id"; "state_id";
            "d_1"; "d_2"; "d_3"]
    [[CStr "I1_S1"; CStr "I1"; CStr "D1"; CStr "C1"; CStr "S1"; CStr "CA";
      CInt 5; CInt 0; CInt 3];
     [CStr "I2_S1"; CStr "I2"; CStr "D1"; CStr "C1"; CStr "S1"; CStr "CA";
      CInt 5; CInt 0; CInt 3]].

Definition prices_file : DataFrame :=
  frame_of ["store_id"; "item_id"; "wm_yr_wk"; "sell_price"]
    [[CStr "S1"; CStr "I1"; CInt 11101; CInt 2];
     [CStr "S1"; CStr "I2"; CInt 11101; CInt 3]].

Definition submission_file : DataFrame :=
  frame_of ["id"; "F1"; "F2"]
    [[CStr "I1_S1"; CInt 0; CInt 0]; [CStr "I2_S1"; CInt 0; CInt 0]].

Definition world_of (fs : list (string * DataFrame)) : World :=
  mkWorld (fun p => match dict_get String.eqb p fs with
                    | Some df => Ok df
                    | None => Err (FileNotFoundError p)
                    end) [].

Definition full_world : World :=
  world_of [("data/calendar.csv", calendar_file);
            ("data/sales_train_validation.csv", sales_file);
            ("data/sell_prices.csv", prices_file);
            ("data/sample_submission.csv", submission_file)].

Definition world_without_prices : World :=
  world_of [("data/calendar.csv", calendar_file);
            ("data/sales_train_validation.csv", sales_file);
            ("data/sample_submission.csv", submission_file)].

(** The integer flag of a day of the week: 1 on days 5 and 6, else 0. *)
Definition weekend_flag (dow : cell) : cell :=
  CInt (if mem cell_eqb dow [CInt 5; CInt 6] then 1 else 0).

(** A long row: identifier cells of a sales row, a day label, the cell. *)
Definition long_row (s : DataFrame) (v : string) (r : row) : list cell :=
  map (fun c => cell_at s c r) (id_cols s) ++ [CStr v; cell_at s v r].

(** The long rows before the join, day column by day column. *)
Definition long_cells (s : DataFrame) : list (list cell) :=
  flat_map (fun v => map (long_row s v) (rows s)) (day_cols s).

(** Dates the calendar lists under a day label, in calendar order. *)
Definition dates_of (c : DataFrame) (d : cell) : list cell :=
  map (cell_at c "date")
      (filter (fun r => cell_eqb (cell_at c "d" r) d) (rows c)).

(** A long row after the left join: once per date of its day label, or
    once with a missing date. *)
Definition with_dates (c : DataFrame) (d : cell) (lc : list cell)
  : list (list cell) :=
  match dates_of c d with
  | [] => [lc ++ [CNA]]
  | ds => map (fun x => lc ++ [x]) ds
  end.

(** The rows before sorting. *)
Definition joined_cells (s c : DataFrame) : list (list cell) :=
  flat_map (fun lc => with_dates c (nth (List.length (id_cols s)) lc CNA) lc)
           (long_cells s).

(** The sort key of a joined row: its item and its date. *)
Definition long_key (s : DataFrame) (cells : list cell) : list cell :=
  [nth (pos_of "item_id" (id_cols s)) cells CNA;
   nth (List.length (id_cols s) + 2) cells CNA].

(** The frame [melt_sales_data] returns on accepted tables. *)
Definition long_frame (s c : DataFrame) : DataFrame :=
  mkDataFrame (id_cols s ++ ["d"; "sales"; "date"])
    (with_range_index
       (stable_sort (fun a b => keys_leb (long_key s a) (long_key s b))
                    (joined_cells s c))).

(** The sort key of a row of a long frame. *)
Definition item_date_key (df : DataFrame) (r : row) : list cell :=
  [cell_at df "item_id" r; cell_at df "date" r].

(** Cells of the rows of a frame that tie with a row on item and date, in
    frame order. *)
Definition tied (df : DataFrame) (r0 : row) : list (list cell) :=
  map cells_of
      (filter (fun r => cells_eqb (item_date_key df r0) (item_date_key df r))
              (rows df)).

(** The date of a day label in a calendar with distinct day labels. *)
Definition date_or_na (c : DataFrame) (d : cell) : cell :=
  hd CNA (dates_of c d).

(** A calendar that lists two of the three days of [sales_file]. *)
Definition calendar_two_days : DataFrame :=
  frame_of ["date"; "d"]
    [[CDate 15003; CStr "d_1"]; [CDate 15004; CStr "d_2"]].

(** A calendar that lists a day twice. *)
Definition calendar_day_twice : DataFrame :=
  frame_of ["date"; "d"]
    [[CDate 15003; CStr "d_1"]; [CDate 15004; CStr "d_1"]].

(** One item sold in two stores, on one day. *)
Definition sales_two_stores : DataFrame :=
  frame_of ["id"; "item_id"; "store_id"; "d_1"]
    [[CStr "I1_S1"; CStr "I1"; CStr "S1"; CInt 5];
     [CStr "I1_S2"; CStr "I1"; CStr "S2"; CInt 3]].

Definition empty_world : World := world_of [].

(* ------------------------------------------------------------------ *)
(** *** A date parser for ISO dates, to run the loader on examples *)

Definition digit (a : ascii) : option Z :=
  let n := nat_of_ascii a in
  if Nat.leb 48 n && Nat.leb n 57 then Some (Z.of_nat (n - 48)) else None.

Fixpoint number (s : string) (acc : Z) : option Z :=
  match s with
  | EmptyString => Some acc
  | String a t =>
      match digit a with
      | Some v => number t (10 * acc + v)%Z
      | None => None
      end
  end.

Definition days_of_civil (y m d : Z) : Z :=
  let y' := (if m <=? 2 then y - 1 else y)%Z in
  let era := (y' / 400)%Z in
  let yoe := (y' - era * 400)%Z in
  let mp := ((m + 9) mod 12)%Z in
  let doy := ((153 * mp + 2) / 5 + d - 1)%Z in
  let doe := (yoe * 365 + yoe / 4 - yoe / 100 + doy)%Z in
  (era * 146097 + doe - 719468)%Z.

(** [YYYY-MM-DD], accepted when it names a day of the calendar. *)
Definition iso_date (s : string) : option Z :=
  if Nat.eqb (String.length s) 10
     && String.eqb (substring 4 1 s) "-" && String.eqb (substring 7 1 s) "-"
  then
    match number (substring 0 4 s) 0, number (substring 5 2 s) 0,
          number (substring 8 2 s) 0 with
    | Some y, Some m, Some d =>
        let t := days_of_civil y m d in
        if (let '(y', m', d') := civil_of_days t in
            Z.eqb y y' && Z.eqb m m' && Z.eqb d d')
        then Some t else None
    | _, _, _ => None
    end
  else None.

(* ================================================================== *)
(** * Properties *)
(* ================================================================== *)

(** ** Equality tests *)

Lemma cell_eqb_eq (a b : cell) : cell_eqb a b = true <-> a = b.
Proof.
  destruct a, b; simpl; split; intros H; try discriminate; try reflexivity.
  - apply String.eqb_eq in H. now subst.
  - injection H as ->. apply String.eqb_refl.
  - apply Z.eqb_eq in H. now subst.
  - injection H as ->. apply Z.eqb_refl.
  - apply Bool.eqb_prop in H. now subst.
  - injection H as ->. apply Bool.eqb_reflx.
  - apply Z.eqb_eq in H. now subst.
  - injection H as ->. apply Z.eqb_refl.
Qed.

Lemma cell_eqb_refl (a : cell) : cell_eqb a a = true.
Proof. now apply cell_eqb_eq. Qed.

Lemma cell_eqb_neq (a b : cell) : cell_eqb a b = false <-> a <> b.
Proof.
  split.
  - intros H E. apply cell_eqb_eq in E. congruence.
  - intros H. destruct (cell_eqb a b) eqn:E; [|reflexivity].
    apply cell_eqb_eq in E. contradiction.
Qed.

Lemma cells_eqb_eq (a b : list cell) : cells_eqb a b = true <-> a = b.
Proof.
  revert b. induction a as [|x a IH]; intros [|y b]; simpl;
    split; intros H; try discriminate; try reflexivity.
  - apply andb_true_iff in H as [H1 H2].
    apply cell_eqb_eq in H1. apply IH in H2. now subst.
  - injection H as -> ->. rewrite cell_eqb_refl. now apply IH.
Qed.

Section Mem.
Context {B : Type} (eqb : B -> B -> bool).
Hypothesis eqb_spec : forall x y, eqb x y = true <-> x = y.

Lemma mem_In (x : B) (l : list B) : mem eqb x l = true <-> In x l.
Proof.
  induction l as [|y l IH]; simpl.
  - split; [discriminate | contradiction].
  - rewrite orb_true_iff, IH, eqb_spec. split; intros [H|H]; auto.
Qed.

Lemma mem_not_In (x : B) (l : list B) : mem eqb x l = false <-> ~ In x l.
Proof.
  rewrite <- mem_In. destruct (mem eqb x l); split; intros H;
    congruence.
Qed.

Context {A : Type} (key : A -> B).

Lemma distinct_from_ext (s1 s2 : list B) (l : list A) :
  (forall x, In x s1 <-> In x s2) ->
  distinct_from eqb key s1 l = distinct_from eqb key s2 l.
Proof.
  revert s1 s2. induction l as [|a l IH]; intros s1 s2 H; simpl; auto.
  assert (E : mem eqb (key a) s1 = mem eqb (key a) s2).
  { destruct (mem eqb (key a) s1) eqn:E1, (mem eqb (key a) s2) eqn:E2;
      auto.
    - apply mem_In in E1. apply H in E1. apply mem_not_In in E2.
      contradiction.
    - apply mem_In in E2. apply H in E2. apply mem_not_In in E1.
      contradiction. }
  rewrite E. destruct (mem eqb (key a) s2).
  - now apply IH.
  - f_equal. apply IH. intros x. simpl. now rewrite H.
Qed.

Lemma distinct_from_In (seen : list B) (l : list A) (a : A) :
  In a (distinct_from eqb key seen l) -> In a l /\ ~ In (key a) seen.
Proof.
  revert seen. induction l as [|x l IH]; intros seen; simpl; [tauto|].
  destruct (mem eqb (key x) seen) eqn:E.
  - intros H. apply IH in H. tauto.
  - intros [->|H].
    + split; auto. now apply mem_not_In.
    + apply IH in H. simpl in H. tauto.
Qed.

Lemma distinct_from_keys (seen : list B) (l : list A) (a : A) :
  In a l -> ~ In (key a) seen ->
  In (key a) (map key (distinct_from eqb key seen l)).
Proof.
  revert seen. induction l as [|x l IH]; intros seen; simpl; [tauto|].
  intros [->|H] Hs.
  - apply mem_not_In in Hs. rewrite Hs. now left.
  - destruct (mem eqb (key x) seen) eqn:E; [now apply IH|].
    simpl. destruct (eqb (key a) (key x)) eqn:Ek.
    + apply eqb_spec in Ek. now left.
    + right. apply IH; auto. simpl. intros [K|K]; [|contradiction].
      symmetry in K. apply eqb_spec in K. congruence.
Qed.

Lemma distinct_from_NoDup (seen : list B) (l : list A) :
  NoDup (map key (distinct_from eqb key seen l)).
Proof.
  revert seen. induction l as [|x l IH]; intros seen; simpl;
    [constructor|].
  destruct (mem eqb (key x) seen) eqn:E; [apply IH|].
  simpl. constructor; [|apply IH].
  intros H. apply in_map_iff in H as (a & Ha & Hin).
  apply distinct_from_In in Hin as [_ Hn]. apply Hn. rewrite Ha.
  now left.
Qed.

Lemma distinct_from_app (seen : list B) (l1 l2 : list A) :
  distinct_from eqb key seen (l1 ++ l2)
  = distinct_from eqb key seen l1
    ++ distinct_from eqb key (rev (map key l1) ++ seen) l2.
Proof.
  revert seen. induction l1 as [|x l1 IH]; intros seen; simpl; auto.
  destruct (mem eqb (key x) seen) eqn:E.
  - rewrite IH. f_equal. apply distinct_from_ext. intros y.
    rewrite !in_app_iff. simpl. apply mem_In in E.
    split; intros H; [tauto | destruct H as [[H|[<-|[]]]|H]; auto].
  - simpl. f_equal. rewrite IH. f_equal. apply distinct_from_ext.
    intros y. rewrite ?in_app_iff. simpl. rewrite ?in_app_iff. simpl.
    tauto.
Qed.

Lemma distinct_from_id (seen : list B) (l : list A) :
  NoDup (map key l) -> (forall a, In a l -> ~ In (key a) seen) ->
  distinct_from eqb key seen l = l.
Proof.
  revert seen. induction l as [|x l IH]; intros seen Hn Hs; simpl; auto.
  inversion Hn as [|? ? Hx Hn']; subst.
  assert (E : mem eqb (key x) seen = false).
  { apply mem_not_In. apply Hs. now left. }
  rewrite E. f_equal. apply IH; auto.
  intros a Ha [K|K].
  - apply Hx. rewrite K. now apply in_map.
  - apply (Hs a); auto. now right.
Qed.
End Mem.

(** ** Labels and positions *)

Lemma has_label_In (c : string) (cols : list string) :
  has_label c cols = true <-> In c cols.
Proof.
  unfold has_label. rewrite existsb_exists. split.
  - intros (x & Hx & E). apply String.eqb_eq in E. now subst.
  - intros H. exists c. split; auto. apply String.eqb_refl.
Qed.

Lemma has_label_not_In (c : string) (cols : list string) :
  has_label c cols = false <-> ~ In c cols.
Proof.
  rewrite <- has_label_In. destruct (has_label c cols); split; congruence.
Qed.

Lemma nodupb_NoDup (l : list string) : nodupb l = true <-> NoDup l.
Proof.
  induction l as [|x l IH]; simpl.
  - split; [constructor | reflexivity].
  - rewrite andb_true_iff, negb_true_iff, has_label_not_In, IH.
    split.
    + intros [H1 H2]. now constructor.
    + intros H. now inversion H.
Qed.

Lemma positions_from_notin (n : nat) (c : string) (cols : list string) :
  ~ In c cols -> positions_from n c cols = [].
Proof.
  revert n. induction cols as [|x cols IH]; intros n H; simpl; auto.
  destruct (String.eqb x c) eqn:E.
  - apply String.eqb_eq in E. subst. contradiction H. now left.
  - apply IH. intros K. apply H. now right.
Qed.

Lemma positions_from_app (n : nat) (c : string) (l1 l2 : list string) :
  positions_from n c (l1 ++ l2)
  = positions_from n c l1 ++ positions_from (n + List.length l1) c l2.
Proof.
  revert n. induction l1 as [|x l1 IH]; intros n; simpl.
  - now rewrite Nat.add_0_r.
  - rewrite IH. replace (S n + List.length l1) with (n + S (List.length l1))
      by lia.
    now destruct (String.eqb x c).
Qed.

Lemma positions_from_nodup (n : nat) (c : string) (cols : list string) :
  NoDup cols -> In c cols ->
  exists j, positions_from n c cols = [n + j]
            /\ nth j cols "" = c /\ j < List.length cols.
Proof.
  intros Hn. revert n. induction Hn as [|x cols Hx Hn IH]; intros n Hin;
    [contradiction|].
  simpl. destruct (String.eqb x c) eqn:E.
  - apply String.eqb_eq in E. subst x. exists 0. rewrite Nat.add_0_r.
    rewrite (positions_from_notin _ _ _ Hx). repeat split; auto. lia.
  - apply String.eqb_neq in E. destruct Hin as [K|K]; [congruence|].
    destruct (IH (S n) K) as (j & E1 & E2 & E3). exists (S j).
    rewrite E1. repeat split; auto; [f_equal; lia | lia].
Qed.

Lemma locate_ok (cols : list string) (c : string) :
  NoDup cols -> In c cols ->
  positions c cols = [pos_of c cols]
  /\ locate c cols = Ok (pos_of c cols)
  /\ nth (pos_of c cols) cols "" = c
  /\ pos_of c cols < List.length cols.
Proof.
  intros Hn Hin.
  destruct (positions_from_nodup 0 c cols Hn Hin) as (j & E1 & E2 & E3).
  unfold locate, pos_of, positions. rewrite E1. simpl. auto.
Qed.

Lemma getitem_ok (df : DataFrame) (c : string) :
  NoDup (columns df) -> In c (columns df) ->
  getitem df c = Ok (map (fun r => (fst r, cell_at df c r)) (rows df)).
Proof.
  intros Hn Hin. destruct (locate_ok _ _ Hn Hin) as (E & _).
  unfold getitem, cell_at. now rewrite E.
Qed.

Lemma getitem_missing (df : DataFrame) (c : string) :
  ~ In c (columns df) -> getitem df c = Err (KeyError c).
Proof.
  intros H. unfold getitem, positions. now rewrite positions_from_notin.
Qed.

Lemma rmap_ok {A B} (f : A -> result B) (g : A -> B) (l : list A) :
  (forall x, In x l -> f x = Ok (g x)) -> rmap f l = Ok (map g l).
Proof.
  induction l as [|a l IH]; intros H; simpl; auto.
  rewrite (H a) by now left. simpl. rewrite IH; auto.
  intros x Hx. apply H. now right.
Qed.

Lemma rmap_length {A B} (f : A -> result B) (l : list A) (bs : list B) :
  rmap f l = Ok bs -> List.length bs = List.length l.
Proof.
  revert bs. induction l as [|a l IH]; intros bs; simpl.
  - intros E. injection E as <-. reflexivity.
  - destruct (f a); simpl; [|discriminate].
    destruct (rmap f l); simpl; [|discriminate].
    intros E. injection E as <-. simpl. f_equal. now apply IH.
Qed.

Lemma positions_from_bound (n : nat) (c : string) (cols : list string)
    (j : nat) :
  In j (positions_from n c cols) ->
  n <= j /\ j - n < List.length cols /\ nth (j - n) cols "" = c.
Proof.
  revert n. induction cols as [|x cols IH]; intros n; simpl; [tauto|].
  intros H.
  assert (K : (String.eqb x c = true /\ j = n)
              \/ In j (positions_from (S n) c cols)).
  { destruct (String.eqb x c); [destruct H as [<-|H]|]; auto. }
  destruct K as [[E ->]|K].
  - apply String.eqb_eq in E. rewrite Nat.sub_diag. repeat split; auto; lia.
  - apply IH in K as (K1 & K2 & K3).
    replace (j - n) with (S (j - S n)) by lia. repeat split; auto; lia.
Qed.

Lemma getitem_inv (df : DataFrame) (c : string) (ser : Series) :
  getitem df c = Ok ser ->
  positions c (columns df) = [pos_of c (columns df)]
  /\ nth (pos_of c (columns df)) (columns df) "" = c
  /\ ser = map (fun r => (fst r, cell_at df c r)) (rows df).
Proof.
  unfold getitem, cell_at, pos_of.
  destruct (positions c (columns df)) as [|j [|k t]] eqn:E;
    try discriminate.
  intros H. injection H as <-. simpl. repeat split; auto.
  assert (K : In j (positions_from 0 c (columns df))).
  { unfold positions in E. rewrite E. now left. }
  apply positions_from_bound in K. rewrite Nat.sub_0_r in K. tauto.
Qed.

Lemma select_single (df : DataFrame) (labels : list string) :
  (forall c, In c labels ->
     positions c (columns df) = [pos_of c (columns df)]
     /\ nth (pos_of c (columns df)) (columns df) "" = c) ->
  select df labels
  = Ok (mkDataFrame labels
          (map (fun r => (fst r, map (fun c => cell_at df c r) labels))
               (rows df))).
Proof.
  intros H. unfold select, select_positions.
  rewrite (rmap_ok _ (fun c => [pos_of c (columns df)])).
  - simpl. f_equal.
    assert (E : List.concat (map (fun c => [pos_of c (columns df)]) labels)
                = map (fun c => pos_of c (columns df)) labels).
    { clear H. induction labels as [|c l IH]; simpl; congruence. }
    rewrite E. f_equal.
    + rewrite map_map. rewrite <- (map_id labels) at 2.
      apply map_ext_in. intros c Hc. now apply H.
    + apply map_ext. intros r. f_equal. now rewrite map_map.
  - intros c Hc. destruct (H c Hc) as [-> _]. reflexivity.
Qed.

Lemma distinct_from_map {A A' B} (eqb : B -> B -> bool) (key : A' -> B)
    (f : A -> A') (seen : list B) (l : list A) :
  distinct_from eqb key seen (map f l)
  = map f (distinct_from eqb (fun a => key (f a)) seen l).
Proof.
  revert seen. induction l as [|a l IH]; intros seen; simpl; auto.
  destruct (mem eqb (key (f a)) seen); simpl; now rewrite IH.
Qed.

(** ** Dictionaries *)

Lemma dict_get_set (k k' v : cell) (d : list (cell * cell)) :
  dict_get cell_eqb k (dict_set cell_eqb k' v d)
  = if cell_eqb k k' then Some v else dict_get cell_eqb k d.
Proof.
  induction d as [|[k1 v1] d IH]; simpl.
  - reflexivity.
  - destruct (cell_eqb k' k1) eqn:E1; simpl.
    + apply cell_eqb_eq in E1. subst k1.
      now destruct (cell_eqb k k').
    + destruct (cell_eqb k k1) eqn:E2; auto.
      apply cell_eqb_eq in E2. subst k1.
      destruct (cell_eqb k k') eqn:E3; auto.
      apply cell_eqb_eq in E3. subst k'. rewrite cell_eqb_refl in E1.
      discriminate.
Qed.

Lemma dict_set_keys (k v : cell) (d : list (cell * cell)) :
  map fst (dict_set cell_eqb k v d)
  = if mem cell_eqb k (map fst d) then map fst d else map fst d ++ [k].
Proof.
  induction d as [|[k1 v1] d IH]; simpl; auto.
  destruct (cell_eqb k k1) eqn:E; simpl; auto.
  rewrite IH. now destruct (mem cell_eqb k (map fst d)).
Qed.

Lemma dict_set_NoDup (k v : cell) (d : list (cell * cell)) :
  NoDup (map fst d) -> NoDup (map fst (dict_set cell_eqb k v d)).
Proof.
  intros H. rewrite dict_set_keys.
  destruct (mem cell_eqb k (map fst d)) eqn:E; auto.
  apply (mem_not_In cell_eqb cell_eqb_eq) in E.
  apply NoDup_app; auto.
  - constructor; [intros []|constructor].
  - intros x Hx [<-|[]]. contradiction.
Qed.

Lemma dict_fold_get (k : cell) (l d : list (cell * cell)) :
  dict_get cell_eqb k
    (fold_left (fun d kv => dict_set cell_eqb (fst kv) (snd kv) d) l d)
  = fold_left (fun acc p => if cell_eqb k (fst p) then Some (snd p) else acc)
      l (dict_get cell_eqb k d).
Proof.
  revert d. induction l as [|[k1 v1] l IH]; intros d; simpl; auto.
  rewrite IH. f_equal. apply dict_get_set.
Qed.

Lemma dict_of_pairs_get (k : cell) (l : list (cell * cell)) :
  dict_get cell_eqb k (dict_of_pairs cell_eqb l) = last_value k l.
Proof. unfold dict_of_pairs, last_value. now rewrite dict_fold_get. Qed.

Lemma dict_of_pairs_NoDup (l : list (cell * cell)) :
  NoDup (dict_keys (dict_of_pairs cell_eqb l)).
Proof.
  unfold dict_of_pairs, dict_keys.
  assert (G : forall d, NoDup (map fst d) ->
            NoDup (map fst (fold_left
              (fun d kv => dict_set cell_eqb (fst kv) (snd kv) d) l d))).
  { induction l as [|p l IH]; intros d Hd; simpl; auto.
    apply IH. now apply dict_set_NoDup. }
  apply G. constructor.
Qed.

Lemma dict_get_keys (k : cell) (d : list (cell * cell)) :
  In k (dict_keys d) <-> exists v, dict_get cell_eqb k d = Some v.
Proof.
  unfold dict_keys. induction d as [|[k1 v1] d IH]; simpl.
  - split; [contradiction | intros [v H]; discriminate].
  - destruct (cell_eqb k k1) eqn:E.
    + apply cell_eqb_eq in E. subst. split; eauto.
    + apply cell_eqb_neq in E. rewrite <- IH. split.
      * intros [H|H]; [congruence | auto].
      * auto.
Qed.

Lemma last_value_acc (k : cell) (l : list (cell * cell)) (acc : option cell)
    (v : cell) :
  fold_left (fun acc p => if cell_eqb k (fst p) then Some (snd p) else acc)
    l acc = Some v ->
  In (k, v) l \/ acc = Some v.
Proof.
  revert acc. induction l as [|[k1 v1] l IH]; intros acc; simpl; auto.
  intros H. apply IH in H as [H|H]; auto.
  destruct (cell_eqb k k1) eqn:E; auto.
  apply cell_eqb_eq in E. subst. injection H as ->. auto.
Qed.

Lemma last_value_In (k v : cell) (l : list (cell * cell)) :
  last_value k l = Some v -> In (k, v) l.
Proof.
  intros H. apply last_value_acc in H as [H|H]; [auto | discriminate].
Qed.

(** ** The hierarchy builder *)

(** Once its five columns are found, the builder fails only in the last
    conversion. *)
Lemma create_hierarchical_structure_eq (s : DataFrame) :
  (forall c, In c id_labels ->
     positions c (columns s) = [pos_of c (columns s)]
     /\ nth (pos_of c (columns s)) (columns s) "" = c) ->
  create_hierarchical_structure s
  = (item_map <- to_dict_index (item_groups s) ;;
     Ok (mkHierarchy
           (distinct_from cell_eqb (fun v => v) [] (column_cells s "state_id"))
           (distinct_from cell_eqb (fun v => v) [] (column_cells s "store_id"))
           (distinct_from cell_eqb (fun v => v) [] (column_cells s "cat_id"))
           (distinct_from cell_eqb (fun v => v) [] (column_cells s "dept_id"))
           (distinct_from cell_eqb (fun v => v) [] (column_cells s "item_id"))
           (dict_of_pairs cell_eqb (store_state_pairs s))
           item_map))%res.
Proof.
  intros H. unfold create_hierarchical_structure, getitem.
  assert (P : forall c, In c id_labels ->
            positions c (columns s) = [pos_of c (columns s)])
    by (intros c Hc; now apply H).
  rewrite !P by (unfold id_labels; simpl; tauto).
  cbn [rbind].
  rewrite (select_single s ["store_id"; "state_id"]).
  2:{ intros c [<-|[<-|[]]]; apply H; unfold id_labels; simpl; tauto. }
  rewrite (select_single s ["item_id"; "dept_id"; "cat_id"]).
  2:{ intros c [<-|[<-|[<-|[]]]]; apply H; unfold id_labels; simpl; tauto. }
  cbn [rbind]. unfold set_index, drop_duplicates. cbn.
  assert (E1 : map (fun r : row =>
                  (cell_pos 0 r,
                   match cells_of r with [] => [] | _ :: l => l end))
                 (distinct_from cells_eqb cells_of []
                    (map (fun r : cell * list cell =>
                            (fst r, [cell_at s "item_id" r;
                                     cell_at s "dept_id" r;
                                     cell_at s "cat_id" r])) (rows s)))
               = rows (item_groups s)).
  { unfold item_groups, item_triples. cbn [rows].
    rewrite !distinct_from_map, !map_map. reflexivity. }
  rewrite E1.
  assert (E2 : map (fun r : cell * list cell => (fst r, cell_pos 0 r))
                 (map (fun r : row =>
                         (cell_pos 0 r,
                          match cells_of r with [] => [] | _ :: l => l end))
                      (distinct_from cells_eqb cells_of []
                         (map (fun r : cell * list cell =>
                                 (fst r, [cell_at s "store_id" r;
                                          cell_at s "state_id" r]))
                              (rows s))))
               = store_state_pairs s).
  { unfold store_state_pairs.
    rewrite !distinct_from_map, !map_map. reflexivity. }
  rewrite E2.
  replace (mkDataFrame ["dept_id"; "cat_id"] (rows (item_groups s)))
    with (item_groups s) by reflexivity.
  destruct (to_dict_index (item_groups s)); cbn [rbind]; [|reflexivity].
  unfold unique, column_cells, cell_at. rewrite !map_map. reflexivity.
Qed.

Lemma create_hierarchical_structure_inv (s : DataFrame) (h : Hierarchy) :
  create_hierarchical_structure s = Ok h ->
  states h = distinct_from cell_eqb (fun v => v) [] (column_cells s "state_id")
  /\ stores h
     = distinct_from cell_eqb (fun v => v) [] (column_cells s "store_id")
  /\ categories h
     = distinct_from cell_eqb (fun v => v) [] (column_cells s "cat_id")
  /\ departments h
     = distinct_from cell_eqb (fun v => v) [] (column_cells s "dept_id")
  /\ items h
     = distinct_from cell_eqb (fun v => v) [] (column_cells s "item_id")
  /\ store_state_mapping h = dict_of_pairs cell_eqb (store_state_pairs s).
Proof.
  intros E.
  assert (H : forall c, In c id_labels ->
            positions c (columns s) = [pos_of c (columns s)]
            /\ nth (pos_of c (columns s)) (columns s) "" = c).
  { revert E. unfold create_hierarchical_structure.
    destruct (getitem s "state_id") eqn:E1; cbn [rbind]; [|discriminate].
    destruct (getitem s "store_id") eqn:E2; cbn [rbind]; [|discriminate].
    destruct (getitem s "cat_id") eqn:E3; cbn [rbind]; [|discriminate].
    destruct (getitem s "dept_id") eqn:E4; cbn [rbind]; [|discriminate].
    destruct (getitem s "item_id") eqn:E5; cbn [rbind]; [|discriminate].
    apply getitem_inv in E1 as (? & ? & _).
    apply getitem_inv in E2 as (? & ? & _).
    apply getitem_inv in E3 as (? & ? & _).
    apply getitem_inv in E4 as (? & ? & _).
    apply getitem_inv in E5 as (? & ? & _).
    intros _ c [<-|[<-|[<-|[<-|[<-|[]]]]]]; split; assumption. }
  rewrite (create_hierarchical_structure_eq s H) in E.
  destruct (to_dict_index (item_groups s)); cbn [rbind] in E;
    [|discriminate].
  injection E as <-. cbn. repeat split; reflexivity.
Qed.

Lemma unique_first_appearance (l : list cell) :
  first_appearance_order l (distinct_from cell_eqb (fun v => v) [] l).
Proof.
  repeat split.
  - rewrite <- (map_id (distinct_from _ _ _ _)).
    apply (distinct_from_NoDup cell_eqb cell_eqb_eq).
  - intros H. now apply (distinct_from_In cell_eqb cell_eqb_eq) in H.
  - intros H.
    apply (distinct_from_keys cell_eqb cell_eqb_eq (fun v => v) [] l x) in H;
      [|auto].
    now rewrite map_id in H.
  - intros l1 x l2 -> Hx.
    rewrite (distinct_from_app cell_eqb cell_eqb_eq).
    exists (distinct_from cell_eqb (fun v => v) [] l1).
    cbn [distinct_from].
    assert (E : mem cell_eqb x (rev (map (fun v => v) l1) ++ []) = false).
    { apply (mem_not_In cell_eqb cell_eqb_eq).
      rewrite app_nil_r, map_id, <- in_rev. exact Hx. }
    rewrite E. eexists. split; [reflexivity|].
    intros y. split.
    + intros H. now apply (distinct_from_In cell_eqb cell_eqb_eq) in H.
    + intros H.
      apply (distinct_from_keys cell_eqb cell_eqb_eq (fun v => v) [] l1 y)
        in H; [|auto].
      now rewrite map_id in H.
Qed.

Lemma item_groups_index_NoDup (s : DataFrame) :
  item_determines_group s -> NoDup (map fst (rows (item_groups s))).
Proof.
  intros Hd. unfold item_groups. cbn [rows]. rewrite map_map. cbn [fst].
  apply NoDup_map_NoDup_ForallPairs.
  - intros t1 t2 H1 H2 E. unfold item_triples in H1, H2.
    apply (distinct_from_In cells_eqb cells_eqb_eq) in H1 as [H1 _].
    apply (distinct_from_In cells_eqb cells_eqb_eq) in H2 as [H2 _].
    apply in_map_iff in H1 as (r1 & <- & R1).
    apply in_map_iff in H2 as (r2 & <- & R2).
    cbn in E. destruct (Hd r1 r2 R1 R2 E) as [E1 E2]. congruence.
  - unfold item_triples. rewrite <- (map_id (distinct_from _ _ _ _)).
    apply (distinct_from_NoDup cells_eqb cells_eqb_eq).
Qed.

Lemma to_dict_index_ok (df : DataFrame) :
  NoDup (map fst (rows df)) -> exists d, to_dict_index df = Ok d.
Proof.
  intros H. unfold to_dict_index.
  rewrite (distinct_from_id cell_eqb cell_eqb_eq).
  - rewrite Nat.eqb_refl. eauto.
  - now rewrite map_id.
  - intros a _ [].
Qed.

(** C10 (amended).  On a table lacking one of the five identifier columns
    the builder raises a [KeyError] naming a missing identifier column.  On
    a table that has the five columns and lists no item under two
    departments or categories it returns, and each of its five lists holds
    the distinct values of its column in order of first appearance. *)
Theorem create_hierarchical_structure_columns (s : DataFrame) :
  NoDup (columns s) ->
  (forall c, In c id_labels -> ~ In c (columns s) ->
     exists c', In c' id_labels /\ ~ In c' (columns s)
                /\ create_hierarchical_structure s = Err (KeyError c'))
  /\ ((forall c, In c id_labels -> In c (columns s)) ->
      item_determines_group s ->
      exists h, create_hierarchical_structure s = Ok h
        /\ first_appearance_order (column_cells s "state_id") (states h)
        /\ first_appearance_order (column_cells s "store_id") (stores h)
        /\ first_appearance_order (column_cells s "cat_id") (categories h)
        /\ first_appearance_order (column_cells s "dept_id") (departments h)
        /\ first_appearance_order (column_cells s "item_id") (items h)).
Proof.
  intros Hn. split.
  - intros c Hc Hmiss.
    destruct (in_dec string_dec "state_id" (columns s)) as [H1|H1].
    2:{ exists "state_id". repeat split; [simpl; tauto | assumption |].
        unfold create_hierarchical_structure.
        now rewrite getitem_missing by assumption. }
    destruct (in_dec string_dec "store_id" (columns s)) as [H2|H2].
    2:{ exists "store_id". repeat split; [simpl; tauto | assumption |].
        unfold create_hierarchical_structure.
        rewrite (getitem_ok s "state_id") by assumption.
        now rewrite getitem_missing by assumption. }
    destruct (in_dec string_dec "cat_id" (columns s)) as [H3|H3].
    2:{ exists "cat_id". repeat split; [simpl; tauto | assumption |].
        unfold create_hierarchical_structure.
        rewrite (getitem_ok s "state_id"), (getitem_ok s "store_id")
          by assumption.
        now rewrite getitem_missing by assumption. }
    destruct (in_dec string_dec "dept_id" (columns s)) as [H4|H4].
    2:{ exists "dept_id". repeat split; [simpl; tauto | assumption |].
        unfold create_hierarchical_structure.
        rewrite (getitem_ok s "state_id"), (getitem_ok s "store_id"),
          (getitem_ok s "cat_id") by assumption.
        now rewrite getitem_missing by assumption. }
    destruct (in_dec string_dec "item_id" (columns s)) as [H5|H5].
    2:{ exists "item_id". repeat split; [simpl; tauto | assumption |].
        unfold create_hierarchical_structure.
        rewrite (getitem_ok s "state_id"), (getitem_ok s "store_id"),
          (getitem_ok s "cat_id"), (getitem_ok s "dept_id") by assumption.
        now rewrite getitem_missing by assumption. }
    exfalso. destruct Hc as [<-|[<-|[<-|[<-|[<-|[]]]]]]; contradiction.
  - intros Hall Hd.
    assert (H : forall c, In c id_labels ->
              positions c (columns s) = [pos_of c (columns s)]
              /\ nth (pos_of c (columns s)) (columns s) "" = c).
    { intros c Hc. destruct (locate_ok (columns s) c Hn (Hall c Hc)).
      tauto. }
    rewrite (create_hierarchical_structure_eq s H).
    destruct (to_dict_index_ok (item_groups s)
                (item_groups_index_NoDup s Hd)) as [d ->].
    cbn [rbind]. eexists. split; [reflexivity|]. cbn.
    repeat split; apply unique_first_appearance.
Qed.

Lemma sales_store_moves_determined : item_determines_group sales_store_moves.
Proof.
  intros r1 r2 H1 H2.
  cbn in H1, H2.
  destruct H1 as [<-|[<-|[<-|[]]]]; destruct H2 as [<-|[<-|[<-|[]]]];
    cbn; intros E; try discriminate E; split; reflexivity.
Qed.

Lemma create_hierarchical_structure_columns_witness :
  NoDup (columns sales_store_moves)
  /\ exists h, create_hierarchical_structure sales_store_moves = Ok h
       /\ first_appearance_order (column_cells sales_store_moves "state_id")
                                 (states h).
Proof.
  assert (Hn : NoDup (columns sales_store_moves))
    by (apply nodupb_NoDup; reflexivity).
  split; [exact Hn|].
  destruct (create_hierarchical_structure_columns sales_store_moves Hn)
    as [_ H].
  destruct H as (h & E & F & _).
  - intros c Hc. cbn in Hc. cbn. tauto.
  - exact sales_store_moves_determined.
  - exists h. split; assumption.
Defined.

(** C10, as stated, fails: with the five identifier columns present the
    builder still raises when an item is listed under two departments. *)
Lemma create_hierarchical_structure_item_conflict :
  NoDup (columns sales_item_moves)
  /\ (forall c, In c id_labels -> In c (columns sales_item_moves))
  /\ create_hierarchical_structure sales_item_moves
     = Err (ValueError "DataFrame index must be unique for orient='index'.").
Proof.
  split; [apply nodupb_NoDup; reflexivity|].
  split; [|reflexivity].
  intros c Hc. cbn in Hc. cbn. tauto.
Qed.

(** C6 (amended).  In the hierarchy the builder returns, the store to
    state mapping has one entry per store; every store that is a key
    stands, in at least one row of the sales table, next to the state it is
    mapped to; and the state kept for a store is the one of the last pair
    among the distinct (store, state) pairs taken in order of first
    appearance. *)
Theorem store_state_mapping_sound (s : DataFrame) (h : Hierarchy) :
  create_hierarchical_structure s = Ok h ->
  NoDup (dict_keys (store_state_mapping h))
  /\ (forall store, In store (dict_keys (store_state_mapping h)) ->
        exists state r,
          dict_get cell_eqb store (store_state_mapping h) = Some state
          /\ In r (rows s)
          /\ cell_at s "store_id" r = store
          /\ cell_at s "state_id" r = state)
  /\ (forall store,
        dict_get cell_eqb store (store_state_mapping h)
        = last_value store (store_state_pairs s)).
Proof.
  intros E. apply create_hierarchical_structure_inv in E.
  destruct E as (_ & _ & _ & _ & _ & ->).
  split; [apply dict_of_pairs_NoDup|]. split.
  - intros store Hk. apply dict_get_keys in Hk as [state Hs].
    exists state. rewrite Hs. rewrite dict_of_pairs_get in Hs.
    apply last_value_In in Hs. unfold store_state_pairs in Hs.
    apply (distinct_from_In cells_eqb cells_eqb_eq) in Hs as [Hs _].
    apply in_map_iff in Hs as (r & Er & Hr). injection Er as E1 E2.
    exists r. auto.
  - intros store. apply dict_of_pairs_get.
Qed.

Lemma store_state_mapping_sound_witness :
  exists h, create_hierarchical_structure sales_store_moves = Ok h
    /\ dict_get cell_eqb (CStr "S1") (store_state_mapping h)
       = last_value (CStr "S1") (store_state_pairs sales_store_moves).
Proof.
  eexists. split; [reflexivity|].
  apply (store_state_mapping_sound sales_store_moves _ eq_refl).
Defined.

(** C6, as stated, fails: the state kept for a store need not be the one
    of the last row in which the store appears. *)
Lemma store_state_mapping_not_last_seen :
  exists h, create_hierarchical_structure sales_store_moves = Ok h
    /\ dict_get cell_eqb (CStr "S1") (store_state_mapping h)
       = Some (CStr "TX")
    /\ last_seen_state sales_store_moves (CStr "S1") = Some (CStr "CA")
    /\ dict_get cell_eqb (CStr "S1") (store_state_mapping h)
       <> last_seen_state sales_store_moves (CStr "S1").
Proof.
  eexists. split; [reflexivity|]. cbn. repeat split. discriminate.
Qed.

(** ** Running the loader *)

Lemma reads_of_app (t1 t2 : list event) :
  reads_of (t1 ++ t2) = reads_of t1 ++ reads_of t2.
Proof.
  induction t1 as [|e t1 IH]; simpl; auto.
  destruct e; simpl; now rewrite IH.
Qed.

Lemma after_after (w : World) (t1 t2 : list event) :
  after (after w t1) t2 = after w (t1 ++ t2).
Proof. unfold after. cbn. now rewrite app_assoc. Qed.

Section LoaderRuns.

Variable parse_date : string -> option Z.
Variable dir : string.

Lemma load_calendar_run (w : World) :
  let p := path_join dir "calendar.csv" in
  let opening := [LogInfoPath "Loading calendar data from" p; ReadCsv p] in
  load_calendar parse_date (M5DataLoader_init dir) w
  = match files w p with
    | Err e0 => (Err e0, after w opening)
    | Ok raw =>
        match calendar_features parse_date raw with
        | Ok cal =>
            (Ok cal,
             after w (opening
                      ++ [LogInfoShape "Calendar data loaded:" (shape cal)]))
        | Err e => (Err e, after w opening)
        end
    end.
Proof.
  cbv zeta. unfold load_calendar, calendar_features, read_csv,
    logger_info_path, logger_info_shape, emit, bind, lift, ret, after.
  cbn -[path_join getitem setitem rmap].
  unfold _get_file_path. cbn [data_dir M5DataLoader_init].
  destruct (files w (path_join dir "calendar.csv")) as [raw|];
    [|now rewrite <- app_assoc].
  repeat match goal with
         | |- context [match ?r with Ok _ => _ | Err _ => _ end] =>
             destruct r; cbn -[path_join getitem setitem rmap]
         end;
    rewrite <- ?app_assoc; reflexivity.
Qed.

End LoaderRuns.

Section PlainLoads.

Variable dir : string.

Lemma load_sales_data_run (validation : bool) (w : World) :
  let p := path_join dir (if validation then "sales_train_validation.csv"
                          else "sales_train_evaluation.csv") in
  let opening := [LogInfoPath "Loading sales data from" p; ReadCsv p] in
  load_sales_data (M5DataLoader_init dir) validation w
  = match files w p with
    | Err e0 => (Err e0, after w opening)
    | Ok df =>
        (Ok df,
         after w (opening ++ [LogInfoShape "Sales data loaded:" (shape df)]))
    end.
Proof.
  cbv zeta. unfold load_sales_data, read_csv, logger_info_path,
    logger_info_shape, emit, bind, lift, ret, after, _get_file_path.
  destruct validation; cbn -[path_join];
    match goal with
    | |- context [files w ?p] => destruct (files w p)
    end; cbn -[path_join]; rewrite <- ?app_assoc; reflexivity.
Qed.

Lemma load_prices_run (w : World) :
  let p := path_join dir "sell_prices.csv" in
  let opening := [LogInfoPath "Loading price data from" p; ReadCsv p] in
  load_prices (M5DataLoader_init dir) w
  = match files w p with
    | Err e0 => (Err e0, after w opening)
    | Ok df =>
        (Ok df,
         after w (opening ++ [LogInfoShape "Price data loaded:" (shape df)]))
    end.
Proof.
  cbv zeta. unfold load_prices, read_csv, logger_info_path,
    logger_info_shape, emit, bind, lift, ret, after, _get_file_path.
  cbn -[path_join].
  destruct (files w (path_join dir "sell_prices.csv"));
    cbn -[path_join]; rewrite <- ?app_assoc; reflexivity.
Qed.

Lemma load_sample_submission_run (w : World) :
  let p := path_join dir "sample_submission.csv" in
  let opening := [LogInfoPath "Loading sample submission from" p; ReadCsv p] in
  load_sample_submission (M5DataLoader_init dir) w
  = match files w p with
    | Err e0 => (Err e0, after w opening)
    | Ok df =>
        (Ok df,
         after w (opening
                  ++ [LogInfoShape "Sample submission loaded:" (shape df)]))
    end.
Proof.
  cbv zeta. unfold load_sample_submission, read_csv, logger_info_path,
    logger_info_shape, emit, bind, lift, ret, after, _get_file_path.
  cbn -[path_join].
  destruct (files w (path_join dir "sample_submission.csv"));
    cbn -[path_join]; rewrite <- ?app_assoc; reflexivity.
Qed.

End PlainLoads.

(** [load_all_data] as a case analysis on the four files. *)
Lemma load_all_data_run (parse_date : string -> option Z) (dir : string)
    (validation : bool) (w : World) :
  let pc := path_join dir "calendar.csv" in
  let ps := path_join dir (if validation then "sales_train_validation.csv"
                           else "sales_train_evaluation.csv") in
  let pp := path_join dir "sell_prices.csv" in
  let pb := path_join dir "sample_submission.csv" in
  let t0 := [LogInfo "Loading all M5 competition data...";
             LogInfoPath "Loading calendar data from" pc; ReadCsv pc] in
  let t1 c := t0 ++ [LogInfoShape "Calendar data loaded:" (shape c);
                     LogInfoPath "Loading sales data from" ps; ReadCsv ps] in
  let t2 c s := t1 c ++ [LogInfoShape "Sales data loaded:" (shape s);
                         LogInfoPath "Loading price data from" pp;
                         ReadCsv pp] in
  let t3 c s p := t2 c s ++ [LogInfoShape "Price data loaded:" (shape p);
                             LogInfoPath "Loading sample submission from" pb;
                             ReadCsv pb] in
  load_all_data parse_date (M5DataLoader_init dir) validation w
  = match files w pc with
    | Err e0 => (Err e0, after w t0)
    | Ok raw =>
      match calendar_features parse_date raw with
      | Err e => (Err e, after w t0)
      | Ok c =>
        match files w ps with
        | Err e0 => (Err e0, after w (t1 c))
        | Ok s =>
          match files w pp with
          | Err e0 => (Err e0, after w (t2 c s))
          | Ok p =>
            match files w pb with
            | Err e0 => (Err e0, after w (t3 c s p))
            | Ok b =>
                (Ok [("calendar", c); ("sales", s); ("prices", p);
                     ("sample_submission", b)],
                 after w (t3 c s p
                          ++ [LogInfoShape "Sample submission loaded:"
                                (shape b);
                              LogInfo "All data loaded successfully!"]))
            end
          end
        end
      end
    end.
Proof.
  cbv zeta. unfold load_all_data, bind at 1. unfold logger_info, emit at 1.
  unfold bind at 1. rewrite load_calendar_run. cbn [files].
  destruct (files w (path_join dir "calendar.csv")) as [raw|];
    [|unfold after; cbn -[path_join]; rewrite <- ?app_assoc; reflexivity].
  destruct (calendar_features parse_date raw) as [c|e];
    [|unfold after; cbn -[path_join]; rewrite <- ?app_assoc; reflexivity].
  unfold bind at 1. rewrite load_sales_data_run. cbn [files after].
  destruct (files w _) as [s|];
    [|unfold after; cbn -[path_join]; rewrite <- ?app_assoc; reflexivity].
  unfold bind at 1. rewrite load_prices_run. cbn [files after].
  destruct (files w _) as [p|];
    [|unfold after; cbn -[path_join]; rewrite <- ?app_assoc; reflexivity].
  unfold bind at 1. rewrite load_sample_submission_run. cbn [files after].
  destruct (files w _) as [b|];
    [|unfold after; cbn -[path_join]; rewrite <- ?app_assoc; reflexivity].
  unfold bind, logger_info, emit, ret, after. cbn -[path_join].
  rewrite <- ?app_assoc. reflexivity.
Qed.

(** C7.  When reading one of the four files fails, [load_all_data]
    returns no collection: it raises.  The files are read in the order
    calendar, sales, prices, sample submission; the last file read is the
    one whose load failed, with the exception the call raises; every file
    before it was read, and no file after it is. *)
Theorem load_all_data_fails_fast (parse_date : string -> option Z)
    (dir : string) (validation : bool) (w : World) :
  let self := M5DataLoader_init dir in
  (exists p e0, In p (load_paths self validation) /\ files w p = Err e0) ->
  exists e w' before p later,
    load_all_data parse_date self validation w = (Err e, w')
    /\ files w' = files w
    /\ load_paths self validation = before ++ p :: later
    /\ reads_of (trace w') = reads_of (trace w) ++ before ++ [p]
    /\ (forall q, In q before -> exists df, files w q = Ok df)
    /\ (files w p = Err e
        \/ (before = []
            /\ exists raw, files w p = Ok raw
                 /\ calendar_features parse_date raw = Err e)).
Proof.
  intros self (p0 & e0 & Hin & Hnone). subst self.
  rewrite load_all_data_run.
  unfold load_paths, _get_file_path in *.
  cbn [data_dir M5DataLoader_init] in *.
  set (pc := path_join dir "calendar.csv") in *.
  set (ps := path_join dir (if validation then "sales_train_validation.csv"
                            else "sales_train_evaluation.csv")) in *.
  set (pp := path_join dir "sell_prices.csv") in *.
  set (pb := path_join dir "sample_submission.csv") in *.
  destruct (files w pc) as [raw|e1] eqn:Ec.
  2:{ eexists e1, _, [], pc, [ps; pp; pb].
      split; [reflexivity|]. unfold after. cbn [files trace].
      rewrite reads_of_app. cbn [reads_of app].
      repeat split; auto; intros q []. }
  destruct (calendar_features parse_date raw) as [c|e] eqn:Ef.
  2:{ eexists e, _, [], pc, [ps; pp; pb].
      split; [reflexivity|]. unfold after. cbn [files trace].
      rewrite reads_of_app. cbn [reads_of app].
      repeat split; auto; try (now intros q []).
      right. split; auto. exists raw. auto. }
  destruct (files w ps) as [s|e2] eqn:Es.
  2:{ eexists e2, _, [pc], ps, [pp; pb].
      split; [reflexivity|]. unfold after. cbn [files trace].
      rewrite reads_of_app. cbn [reads_of app].
      repeat split; auto.
      intros q [<-|[]]. eauto. }
  destruct (files w pp) as [p|e3] eqn:Ep.
  2:{ eexists e3, _, [pc; ps], pp, [pb].
      split; [reflexivity|]. unfold after. cbn [files trace].
      rewrite reads_of_app. cbn [reads_of app].
      repeat split; auto.
      intros q [<-|[<-|[]]]; eauto. }
  destruct (files w pb) as [b|e4] eqn:Eb.
  2:{ eexists e4, _, [pc; ps; pp], pb, [].
      split; [reflexivity|]. unfold after. cbn [files trace].
      rewrite reads_of_app. cbn [reads_of app].
      repeat split; auto.
      intros q [<-|[<-|[<-|[]]]]; eauto. }
  exfalso. destruct Hin as [<-|[<-|[<-|[<-|[]]]]]; congruence.
Qed.

Lemma load_all_data_fails_fast_witness :
  exists e w' before p later,
    load_all_data iso_date (M5DataLoader_init "data") true
      world_without_prices = (Err e, w')
    /\ files w' = files world_without_prices
    /\ load_paths (M5DataLoader_init "data") true = before ++ p :: later
    /\ reads_of (trace w')
       = reads_of (trace world_without_prices) ++ before ++ [p]
    /\ (forall q, In q before ->
          exists df, files world_without_prices q = Ok df)
    /\ (files world_without_prices p = Err e
        \/ (before = []
            /\ exists raw, files world_without_prices p = Ok raw
                 /\ calendar_features iso_date raw = Err e)).
Proof.
  apply (load_all_data_fails_fast iso_date "data" true world_without_prices).
  exists "data/sell_prices.csv", (FileNotFoundError "data/sell_prices.csv").
  split; [|reflexivity].
  cbn. tauto.
Defined.

(** ** Computations that only read *)

Lemma reader_ret {A} (a : A) : reader (ret a).
Proof.
  intros w. exists []. intros w' _. unfold ret, after. cbn.
  rewrite app_nil_r. now destruct w'.
Qed.

Lemma reader_lift {A} (r : result A) : reader (lift r).
Proof.
  intros w. exists []. intros w' _. unfold lift, after. cbn.
  rewrite app_nil_r. now destruct w'.
Qed.

Lemma reader_emit (e : event) : reader (emit e).
Proof. intros w. exists [e]. intros w' _. reflexivity. Qed.

Lemma reader_bind {A B} (m : M A) (k : A -> M B) :
  reader m -> (forall a, reader (k a)) -> reader (bind m k).
Proof.
  intros Hm Hk w. destruct (Hm w) as [t1 H1].
  pose proof (H1 w eq_refl) as E. unfold bind at 2. rewrite E. cbn [fst].
  destruct (fst (m w)) as [a|e] eqn:R.
  - destruct (Hk a (after w t1)) as [t2 H2]. exists (t1 ++ t2).
    intros w' Hw. unfold bind. rewrite (H1 w' Hw).
    rewrite (H2 (after w' t1)) by exact Hw.
    now rewrite after_after.
  - exists t1. intros w' Hw. unfold bind. now rewrite (H1 w' Hw).
Qed.

Lemma reader_read_csv (path : string) : reader (read_csv path).
Proof.
  intros w. exists [ReadCsv path]. intros w' Hw.
  unfold read_csv, bind, emit, after. cbn. now rewrite Hw.
Qed.

Create HintDb reader.
#[local] Hint Resolve reader_ret reader_lift reader_emit reader_read_csv
  : reader.

Ltac reader_steps :=
  repeat (cbv zeta;
          lazymatch goal with
          | |- reader (bind _ _) => apply reader_bind; [|intros]
          end);
  cbv zeta; unfold logger_info, logger_info_path, logger_info_shape;
  auto with reader.

Lemma reader_load_calendar (parse_date : string -> option Z)
    (self : M5DataLoader) : reader (load_calendar parse_date self).
Proof. unfold load_calendar. reader_steps. Qed.

Lemma reader_load_sales_data (self : M5DataLoader) (validation : bool) :
  reader (load_sales_data self validation).
Proof. unfold load_sales_data. reader_steps. Qed.

Lemma reader_load_prices (self : M5DataLoader) : reader (load_prices self).
Proof. unfold load_prices. reader_steps. Qed.

Lemma reader_load_sample_submission (self : M5DataLoader) :
  reader (load_sample_submission self).
Proof. unfold load_sample_submission. reader_steps. Qed.

#[local] Hint Resolve reader_load_calendar reader_load_sales_data
  reader_load_prices reader_load_sample_submission : reader.

Lemma reader_load_all_data (parse_date : string -> option Z)
    (self : M5DataLoader) (validation : bool) :
  reader (load_all_data parse_date self validation).
Proof. unfold load_all_data. reader_steps. Qed.

(** C9.  The result of [load_all_data] depends on the files only: a second
    call on the unchanged files, from the world the first call left,
    returns the same result; the call itself leaves the files as they are.
    When both calls return, the two collections hold, under the same names,
    tables with the same shape, the same columns and the same rows. *)
Theorem load_all_data_deterministic (parse_date : string -> option Z)
    (self : M5DataLoader) (validation : bool) (w : World) :
  let first := load_all_data parse_date self validation w in
  let second := load_all_data parse_date self validation (snd first) in
  files (snd first) = files w
  /\ fst second = fst first
  /\ (forall w2, files w2 = files w ->
        fst (load_all_data parse_date self validation w2) = fst first)
  /\ (forall d1 d2, fst first = Ok d1 -> fst second = Ok d2 ->
        map fst d1 = map fst d2
        /\ forall name t1 t2,
             dict_get String.eqb name d1 = Some t1 ->
             dict_get String.eqb name d2 = Some t2 ->
             shape t1 = shape t2
             /\ columns t1 = columns t2 /\ rows t1 = rows t2).
Proof.
  cbv zeta.
  destruct (reader_load_all_data parse_date self validation w) as [t H].
  assert (F : files (snd (load_all_data parse_date self validation w))
              = files w).
  { rewrite (H w eq_refl). reflexivity. }
  assert (S : fst (load_all_data parse_date self validation
                     (snd (load_all_data parse_date self validation w)))
              = fst (load_all_data parse_date self validation w)).
  { rewrite (H _ F). reflexivity. }
  repeat split.
  - exact F.
  - exact S.
  - intros w2 Hw. now rewrite (H w2 Hw).
  - rewrite S in H1. congruence.
  - rewrite S in H1. assert (d1 = d2) by congruence. subst.
    rewrite H2 in H3. now injection H3 as <-.
  - rewrite S in H1. assert (d1 = d2) by congruence. subst.
    rewrite H2 in H3. now injection H3 as <-.
  - rewrite S in H1. assert (d1 = d2) by congruence. subst.
    rewrite H2 in H3. now injection H3 as <-.
Qed.

Lemma load_all_data_deterministic_witness :
  exists d,
    fst (load_all_data iso_date (M5DataLoader_init "data") true full_world)
    = Ok d
    /\ fst (load_all_data iso_date (M5DataLoader_init "data") true
              (snd (load_all_data iso_date (M5DataLoader_init "data") true
                      full_world)))
       = Ok d.
Proof.
  destruct (load_all_data_deterministic iso_date (M5DataLoader_init "data")
              true full_world) as (_ & E & _).
  cbv zeta in E. rewrite E. eexists. split; vm_compute; reflexivity.
Defined.

(** ** Column assignment *)

Lemma frame_ok_spec (df : DataFrame) :
  frame_ok df = true <->
  NoDup (columns df)
  /\ forall r, In r (rows df) ->
       List.length (cells_of r) = List.length (columns df).
Proof.
  unfold frame_ok. rewrite andb_true_iff, nodupb_NoDup, forallb_forall.
  split; intros [H1 H2]; split; auto; intros r Hr.
  - now apply Nat.eqb_eq, H2.
  - now apply Nat.eqb_eq, H2.
Qed.

Lemma map_combine_fst {A B C} (h : A -> C) (l1 : list A) (l2 : list B) :
  List.length l2 = List.length l1 ->
  map (fun ab => h (fst ab)) (combine l1 l2) = map h l1.
Proof.
  revert l2. induction l1 as [|a l1 IH]; intros [|b l2] H; simpl in *;
    try discriminate; auto.
  f_equal. apply IH. lia.
Qed.

Lemma map_combine_snd {A B C} (h : B -> C) (l1 : list A) (l2 : list B) :
  List.length l2 = List.length l1 ->
  map (fun ab => h (snd ab)) (combine l1 l2) = map h l2.
Proof.
  revert l2. induction l1 as [|a l1 IH]; intros [|b l2] H; simpl in *;
    try discriminate; auto.
  f_equal. apply IH. lia.
Qed.

Lemma map_combine_ext {A B C} (f g : A * B -> C) (l1 : list A)
    (l2 : list B) :
  (forall a b, In a l1 -> f (a, b) = g (a, b)) ->
  map f (combine l1 l2) = map g (combine l1 l2).
Proof.
  intros H. apply map_ext_in. intros [a b] Hab. apply H.
  eapply in_combine_l. eassumption.
Qed.

Lemma set_nth_length {A} (j : nat) (v : A) (l : list A) :
  List.length (set_nth j v l) = List.length l.
Proof.
  revert j. induction l as [|x l IH]; intros [|j]; simpl; auto.
Qed.

Lemma set_nth_same {A} (j : nat) (v d : A) (l : list A) :
  j < List.length l -> nth j (set_nth j v l) d = v.
Proof.
  revert j. induction l as [|x l IH]; intros [|j] H; simpl in *;
    try lia; auto. apply IH. lia.
Qed.

Lemma set_nth_other {A} (i j : nat) (v d : A) (l : list A) :
  i <> j -> nth i (set_nth j v l) d = nth i l d.
Proof.
  revert i j. induction l as [|x l IH]; intros [|i] [|j] H; simpl;
    try congruence; auto.
Qed.

Lemma positions_cases (cols : list string) (c : string) :
  NoDup cols ->
  (~ In c cols /\ positions c cols = [])
  \/ (In c cols /\ positions c cols = [pos_of c cols]
      /\ pos_of c cols < List.length cols
      /\ nth (pos_of c cols) cols "" = c).
Proof.
  intros Hn. destruct (in_dec string_dec c cols) as [H|H].
  - right. destruct (locate_ok cols c Hn H) as (E1 & _ & E2 & E3). auto.
  - left. split; auto. now apply positions_from_notin.
Qed.

Lemma pos_of_inj (cols : list string) (c c' : string) :
  NoDup cols -> In c cols -> In c' cols ->
  pos_of c cols = pos_of c' cols -> c = c'.
Proof.
  intros Hn H H' E.
  destruct (locate_ok cols c Hn H) as (_ & _ & E1 & _).
  destruct (locate_ok cols c' Hn H') as (_ & _ & E2 & _).
  congruence.
Qed.

Lemma setitem_ok (df : DataFrame) (c : string) (vals : list cell) :
  frame_ok df = true -> List.length vals = List.length (rows df) ->
  frame_ok (setitem df c vals) = true
  /\ List.length (rows (setitem df c vals)) = List.length (rows df)
  /\ map fst (rows (setitem df c vals)) = map fst (rows df)
  /\ In c (columns (setitem df c vals))
  /\ (forall c', In c' (columns df) -> In c' (columns (setitem df c vals)))
  /\ column_cells (setitem df c vals) c = vals
  /\ (forall c', c' <> c -> In c' (columns df) ->
        column_cells (setitem df c vals) c' = column_cells df c').
Proof.
  intros Hok Hlen. apply frame_ok_spec in Hok as [Hn Hr].
  unfold setitem.
  destruct (positions_cases (columns df) c Hn)
    as [[Hc ->]|(Hc & -> & Hj & Hnth)].
  - (* a new column *)
    assert (Hn' : NoDup (columns df ++ [c])).
    { apply NoDup_app; auto.
      - constructor; [intros []|constructor].
      - intros x Hx [<-|[]]. contradiction. }
    assert (Pc : pos_of c (columns df ++ [c]) = List.length (columns df)).
    { unfold pos_of, positions. rewrite positions_from_app.
      rewrite positions_from_notin by assumption. cbn.
      now rewrite String.eqb_refl. }
    repeat split.
    + apply frame_ok_spec. cbn [columns rows]. split; auto.
      intros r Hin. apply in_map_iff in Hin as ([r0 v] & <- & Hin).
      apply in_combine_l in Hin. cbn. rewrite !length_app, (Hr r0 Hin).
      reflexivity.
    + cbn [rows]. rewrite length_map, length_combine. lia.
    + cbn [rows]. rewrite map_map. cbn [fst].
      apply (map_combine_fst fst). assumption.
    + cbn [columns]. apply in_or_app. right. now left.
    + intros c' H'. cbn [columns]. apply in_or_app. now left.
    + unfold column_cells, cell_at. cbn [columns rows]. rewrite Pc, map_map.
      rewrite <- (map_id vals) at 2.
      rewrite <- (map_combine_snd (fun v => v) (rows df) vals Hlen).
      apply map_combine_ext. intros r v Hin. unfold cell_pos. cbn.
      rewrite app_nth2; rewrite (Hr r Hin); [|lia].
      now rewrite Nat.sub_diag.
    + intros c' Hne H'. unfold column_cells, cell_at. cbn [columns rows].
      rewrite map_map.
      rewrite <- (map_combine_fst (fun r => cell_pos (pos_of c' (columns df)) r)
                    (rows df) vals Hlen).
      apply map_combine_ext. intros r v Hin. unfold cell_pos. cbn.
      destruct (locate_ok _ _ Hn H') as (P' & _ & _ & L').
      assert (E : pos_of c' (columns df ++ [c]) = pos_of c' (columns df)).
      { unfold pos_of at 1. unfold positions. rewrite positions_from_app.
        fold (positions c' (columns df)). rewrite P'. reflexivity. }
      rewrite E. apply app_nth1. rewrite (Hr r Hin). exact L'.
  - (* an existing column *)
    cbn [fold_left].
    repeat split.
    + apply frame_ok_spec. cbn [columns rows]. split; auto.
      intros r Hin. apply in_map_iff in Hin as ([r0 v] & <- & Hin).
      apply in_combine_l in Hin. cbn. rewrite set_nth_length. auto.
    + cbn [rows]. rewrite length_map, length_combine. lia.
    + cbn [rows]. rewrite map_map. cbn [fst].
      apply (map_combine_fst fst). assumption.
    + assumption.
    + auto.
    + unfold column_cells, cell_at. cbn [columns rows]. rewrite map_map.
      rewrite <- (map_id vals) at 2.
      rewrite <- (map_combine_snd (fun v => v) (rows df) vals Hlen).
      apply map_combine_ext. intros r v Hin. unfold cell_pos. cbn.
      apply set_nth_same. now rewrite (Hr r Hin).
    + intros c' Hne H'. unfold column_cells, cell_at. cbn [columns rows].
      rewrite map_map.
      rewrite <- (map_combine_fst (fun r => cell_pos (pos_of c' (columns df)) r)
                    (rows df) vals Hlen).
      apply map_combine_ext. intros r v Hin. unfold cell_pos. cbn.
      apply set_nth_other. intros E. apply Hne.
      now apply (pos_of_inj (columns df)).
Qed.

(** ** The calendar *)

Lemma getitem_cells (df : DataFrame) (c : string) :
  frame_ok df = true -> In c (columns df) ->
  exists ser, getitem df c = Ok ser /\ map snd ser = column_cells df c.
Proof.
  intros Hok Hin. apply frame_ok_spec in Hok as [Hn _].
  rewrite getitem_ok by assumption. eexists. split; [reflexivity|].
  rewrite map_map. reflexivity.
Qed.

Lemma getitem_In (df : DataFrame) (c : string) (ser : Series) :
  getitem df c = Ok ser -> In c (columns df).
Proof.
  intros H. destruct (in_dec string_dec c (columns df)) as [K|K]; auto.
  rewrite getitem_missing in H by assumption. discriminate.
Qed.

Lemma column_cells_length (df : DataFrame) (c : string) :
  List.length (column_cells df c) = List.length (rows df).
Proof. unfold column_cells. apply length_map. Qed.

Lemma astype_int_isin (l : list cell) :
  rmap astype_int (map (isin [CInt 5; CInt 6]) l) = Ok (map weekend_flag l).
Proof.
  induction l as [|d l IH]; [reflexivity|].
  cbn [map rmap]. rewrite IH. unfold isin at 1, weekend_flag at 1.
  cbn [astype_int rbind]. reflexivity.
Qed.

Lemma feature_ok (df : DataFrame) (c : string) (f : cell -> cell) :
  frame_ok df = true -> In "date" (columns df) ->
  let df' := setitem df c (map f (column_cells df "date")) in
  frame_ok df' = true
  /\ In "date" (columns df')
  /\ In c (columns df')
  /\ (forall c', In c' (columns df) -> In c' (columns df'))
  /\ column_cells df' c = map f (column_cells df "date")
  /\ (forall c', c' <> c -> In c' (columns df) ->
        column_cells df' c' = column_cells df c').
Proof.
  intros Hok Hin df'.
  assert (L : List.length (map f (column_cells df "date"))
              = List.length (rows df))
    by now rewrite length_map, column_cells_length.
  destruct (setitem_ok df c _ Hok L) as (K & _ & _ & D & P & V & O).
  repeat split; auto.
Qed.

(** The derived columns of a loaded calendar: the day of the week comes
    from the date, the weekend flag from the day of the week. *)
Lemma calendar_features_columns (parse_date : string -> option Z)
    (raw cal : DataFrame) :
  frame_ok raw = true ->
  calendar_features parse_date raw = Ok cal ->
  frame_ok cal = true
  /\ In "date" (columns cal)
  /\ In "dayofweek" (columns cal)
  /\ In "is_weekend" (columns cal)
  /\ column_cells cal "dayofweek"
     = map dt_dayofweek (column_cells cal "date")
  /\ column_cells cal "is_weekend"
     = map weekend_flag (column_cells cal "dayofweek").
Proof.
  intros Hok H. unfold calendar_features in H. cbv zeta in H.
  destruct (getitem raw "date") as [date|] eqn:G; [|discriminate].
  cbn [rbind] in H.
  destruct (rmap (to_datetime parse_date) (map snd date)) as [parsed|] eqn:P;
    [|discriminate].
  cbn [rbind] in H.
  pose proof (getitem_In _ _ _ G) as I0.
  destruct (getitem_cells raw "date" Hok I0) as (ser & G' & S).
  rewrite G in G'. injection G' as <-.
  assert (Lp : List.length parsed = List.length (rows raw)).
  { rewrite (rmap_length _ _ _ P), S. apply column_cells_length. }
  destruct (setitem_ok raw "date" parsed Hok Lp)
    as (K1 & _ & _ & D1 & _ & _ & _).
  set (X1 := setitem raw "date" parsed) in *.
  destruct (getitem_cells X1 "date" K1 D1) as (s1 & G1 & S1).
  rewrite G1 in H. cbn [rbind] in H. rewrite S1 in H.
  destruct (feature_ok X1 "year" dt_year K1 D1) as (K2 & D2 & _).
  set (X2 := setitem X1 "year" _) in *.
  destruct (getitem_cells X2 "date" K2 D2) as (s2 & G2 & S2).
  rewrite G2 in H. cbn [rbind] in H. rewrite S2 in H.
  destruct (feature_ok X2 "month" dt_month K2 D2) as (K3 & D3 & _).
  set (X3 := setitem X2 "month" _) in *.
  destruct (getitem_cells X3 "date" K3 D3) as (s3 & G3 & S3).
  rewrite G3 in H. cbn [rbind] in H. rewrite S3 in H.
  destruct (feature_ok X3 "day" dt_day K3 D3) as (K4 & D4 & _).
  set (X4 := setitem X3 "day" _) in *.
  destruct (getitem_cells X4 "date" K4 D4) as (s4 & G4 & S4).
  rewrite G4 in H. cbn [rbind] in H. rewrite S4 in H.
  destruct (feature_ok X4 "dayofweek" dt_dayofweek K4 D4)
    as (K5 & D5 & W5 & _ & V5 & O5).
  set (X5 := setitem X4 "dayofweek" _) in *.
  destruct (getitem_cells X5 "date" K5 D5) as (s5 & G5 & S5).
  rewrite G5 in H. cbn [rbind] in H. rewrite S5 in H.
  destruct (feature_ok X5 "quarter" dt_quarter K5 D5)
    as (K6 & D6 & _ & P6 & _ & O6).
  set (X6 := setitem X5 "quarter" _) in *.
  assert (W6 : In "dayofweek" (columns X6)) by auto.
  destruct (getitem_cells X6 "dayofweek" K6 W6) as (dow & Gd & Sd).
  rewrite Gd in H. cbn [rbind] in H. rewrite Sd, astype_int_isin in H.
  cbn [rbind] in H. injection H as <-.
  assert (L7 : List.length (map weekend_flag (column_cells X6 "dayofweek"))
               = List.length (rows X6))
    by now rewrite length_map, column_cells_length.
  destruct (setitem_ok X6 "is_weekend" _ K6 L7)
    as (K7 & _ & _ & D7 & P7 & V7 & O7).
  repeat split; auto.
  - rewrite (O7 "dayofweek") by (auto; discriminate).
    rewrite (O7 "date") by (auto; discriminate).
    rewrite (O6 "dayofweek") by (auto; discriminate).
    rewrite (O6 "date") by (auto; discriminate).
    rewrite (O5 "date") by (auto; discriminate).
    exact V5.
  - rewrite V7. now rewrite (O7 "dayofweek") by (auto; discriminate).
Qed.

(** C3 (amended).  In the calendar [load_calendar] returns, the weekend
    flag of a row is an integer: 1 when the derived day of the week (Monday
    is 0) is 5 or 6, that is Saturday or Sunday, and 0 otherwise; the day of
    the week is the one of the row's date. *)
Theorem load_calendar_is_weekend (parse_date : string -> option Z)
    (dir : string) (w w' : World) (raw cal : DataFrame) :
  files w (path_join dir "calendar.csv") = Ok raw ->
  frame_ok raw = true ->
  load_calendar parse_date (M5DataLoader_init dir) w = (Ok cal, w') ->
  column_cells cal "dayofweek" = map dt_dayofweek (column_cells cal "date")
  /\ Forall2 (fun dow flag =>
                exists z, flag = CInt z
                  /\ (z = 0 \/ z = 1)%Z
                  /\ (z = 1%Z <-> dow = CInt 5 \/ dow = CInt 6))
       (column_cells cal "dayofweek") (column_cells cal "is_weekend").
Proof.
  intros Hf Hok H. rewrite load_calendar_run in H. cbv zeta in H.
  rewrite Hf in H.
  destruct (calendar_features parse_date raw) as [c|] eqn:E;
    [|discriminate].
  injection H as <- _.
  destruct (calendar_features_columns _ _ _ Hok E)
    as (_ & _ & _ & _ & V1 & V2).
  split; [exact V1|]. rewrite V2.
  generalize (column_cells c "dayofweek"). intros l.
  induction l as [|d l IH]; cbn [map]; constructor; auto.
  unfold weekend_flag. cbn [mem].
  destruct (cell_eqb d (CInt 5)) eqn:E5.
  - apply cell_eqb_eq in E5. subst d. exists 1%Z. cbn. intuition.
  - destruct (cell_eqb d (CInt 6)) eqn:E6.
    + apply cell_eqb_eq in E6. subst d. exists 1%Z. cbn. intuition.
    + apply cell_eqb_neq in E5, E6. exists 0%Z. cbn.
      intuition; try discriminate; congruence.
Qed.

Lemma load_calendar_is_weekend_witness :
  exists cal w',
    load_calendar iso_date (M5DataLoader_init "data") full_world
    = (Ok cal, w')
    /\ Forall2 (fun dow flag =>
                  exists z, flag = CInt z
                    /\ (z = 0 \/ z = 1)%Z
                    /\ (z = 1%Z <-> dow = CInt 5 \/ dow = CInt 6))
         (column_cells cal "dayofweek") (column_cells cal "is_weekend").
Proof.
  eexists. eexists. split; [vm_compute; reflexivity|].
  eapply (load_calendar_is_weekend iso_date "data" full_world _
            calendar_file).
  - reflexivity.
  - reflexivity.
  - vm_compute. reflexivity.
Defined.

(** C3, as stated, fails: the flag of a Saturday is the integer 1, not a
    boolean. *)
Lemma load_calendar_is_weekend_not_boolean :
  exists cal w',
    load_calendar iso_date (M5DataLoader_init "data") full_world
    = (Ok cal, w')
    /\ column_cells cal "date" = [CDate 15003; CDate 15004; CDate 15005]
    /\ column_cells cal "dayofweek" = [CInt 5; CInt 6; CInt 0]
    /\ column_cells cal "is_weekend" = [CInt 1; CInt 1; CInt 0]
    /\ forall b, ~ In (CBool b) (column_cells cal "is_weekend").
Proof.
  eexists. eexists. split; [vm_compute; reflexivity|].
  repeat split; try (vm_compute; reflexivity).
  intros b. vm_compute. intros [H|[H|[H|[]]]]; discriminate.
Qed.

(** ** Loading and preparing *)

Lemma load_all_data_keys (parse_date : string -> option Z) (dir : string)
    (validation : bool) (w w1 : World) (loaded : list (string * DataFrame)) :
  load_all_data parse_date (M5DataLoader_init dir) validation w
  = (Ok loaded, w1) ->
  exists c s p b,
    loaded = [("calendar", c); ("sales", s); ("prices", p);
              ("sample_submission", b)].
Proof.
  rewrite load_all_data_run. cbv zeta.
  destruct (files w _); [|discriminate].
  destruct (calendar_features _ _); [|discriminate].
  destruct (files w _); [|discriminate].
  destruct (files w _); [|discriminate].
  destruct (files w _); [|discriminate].
  intros H. injection H as <- _. eauto.
Qed.

(** C8.  [load_and_prepare_data] returns a pair exactly when the load, the
    hierarchy of the loaded sales table and, with the melt flag set, the
    melt of the loaded sales and calendar tables all return.  The second
    component is that hierarchy, whatever the flag.  Without the flag the
    first component is the loaded collection and nothing happens after the
    load; with it the melted table is added under [sales_melted]. *)
Theorem load_and_prepare_data_spec (parse_date : string -> option Z)
    (dir : string) (validation melt_sales : bool) (w : World) :
  (forall data h w',
     load_and_prepare_data parse_date dir validation melt_sales w
     = (Ok (data, h), w') ->
     exists loaded w1 sales,
       load_all_data parse_date (M5DataLoader_init dir) validation w
       = (Ok loaded, w1)
       /\ dict_get String.eqb "sales" loaded = Some sales
       /\ create_hierarchical_structure sales = Ok h
       /\ if melt_sales
          then exists calendar melted,
                 dict_get String.eqb "calendar" loaded = Some calendar
                 /\ melt_sales_data sales calendar w1 = (Ok melted, w')
                 /\ data = loaded ++ [("sales_melted", melted)]
          else data = loaded /\ w' = w1
               /\ dict_get String.eqb "sales_melted" data = None)
  /\ (forall loaded w1 sales calendar,
        load_all_data parse_date (M5DataLoader_init dir) validation w
        = (Ok loaded, w1) ->
        dict_get String.eqb "sales" loaded = Some sales ->
        dict_get String.eqb "calendar" loaded = Some calendar ->
        load_and_prepare_data parse_date dir validation melt_sales w
        = match create_hierarchical_structure sales with
          | Err e => (Err e, w1)
          | Ok h =>
              if melt_sales
              then match melt_sales_data sales calendar w1 with
                   | (Ok melted, w') =>
                       (Ok (loaded ++ [("sales_melted", melted)], h), w')
                   | (Err e, w') => (Err e, w')
                   end
              else (Ok (loaded, h), w1)
          end).
Proof.
  split.
  - intros data h w' H. unfold load_and_prepare_data in H. cbv zeta in H.
    unfold bind at 1 in H.
    destruct (load_all_data parse_date (M5DataLoader_init dir) validation w)
      as [[loaded|e] w1] eqn:L; [|discriminate].
    destruct (load_all_data_keys _ _ _ _ _ _ L) as (c & s & p & b & ->).
    exists [("calendar", c); ("sales", s); ("prices", p);
            ("sample_submission", b)], w1, s.
    split; [reflexivity|]. split; [reflexivity|].
    unfold bind, lift, ret in H.
    cbn -[create_hierarchical_structure melt_sales_data] in H.
    destruct (create_hierarchical_structure s) as [h0|]; [|discriminate].
    destruct melt_sales.
    + cbn -[melt_sales_data] in H.
      destruct (melt_sales_data s c w1) as [[m|] w2] eqn:Em; [|discriminate].
      injection H as <- <- <-. split; [reflexivity|].
      exists c, m. repeat split; auto.
    + injection H as <- <- <-. repeat split.
  - intros loaded w1 sales calendar L Hs Hc.
    destruct (load_all_data_keys _ _ _ _ _ _ L) as (c & s & p & b & ->).
    cbn in Hs, Hc. injection Hs as ->. injection Hc as ->.
    unfold load_and_prepare_data. cbv zeta. unfold bind at 1. rewrite L.
    unfold bind, lift, ret.
    cbn -[create_hierarchical_structure melt_sales_data].
    destruct (create_hierarchical_structure sales) as [h0|]; [|reflexivity].
    destruct melt_sales; [|reflexivity].
    cbn -[melt_sales_data].
    destruct (melt_sales_data sales calendar w1) as [[m|] w2]; reflexivity.
Qed.

Lemma load_and_prepare_data_spec_witness :
  exists loaded w1 sales h,
    load_all_data iso_date (M5DataLoader_init "data") true full_world
    = (Ok loaded, w1)
    /\ dict_get String.eqb "sales" loaded = Some sales
    /\ create_hierarchical_structure sales = Ok h
    /\ exists calendar melted w',
         dict_get String.eqb "calendar" loaded = Some calendar
         /\ melt_sales_data sales calendar w1 = (Ok melted, w')
         /\ load_and_prepare_data iso_date "data" true true full_world
            = (Ok (loaded ++ [("sales_melted", melted)], h), w').
Proof.
  destruct (load_and_prepare_data iso_date "data" true true full_world)
    as [[[data h]|e] w'] eqn:E; [|vm_compute in E; discriminate].
  destruct (proj1 (load_and_prepare_data_spec iso_date "data" true true
                     full_world) data h w' E)
    as (loaded & w1 & sales & L & S & C & calendar & melted & K & M & ->).
  exists loaded, w1, sales, h. repeat split; auto.
  exists calendar, melted, w'. repeat split; auto.
Defined.

(** ** Stable sorting *)

Section StableSort.
Context {A : Type} (leb : A -> A -> bool).
Hypothesis leb_total : forall x y, leb x y = true \/ leb y x = true.
Hypothesis leb_trans :
  forall x y z, leb x y = true -> leb y z = true -> leb x z = true.

Lemma insert_sorted_perm (x : A) (l : list A) :
  Permutation (insert_sorted leb x l) (x :: l).
Proof.
  induction l as [|y l IH]; simpl; auto.
  destruct (leb x y); auto.
  rewrite IH. apply perm_swap.
Qed.

Lemma stable_sort_perm (l : list A) : Permutation (stable_sort leb l) l.
Proof.
  induction l as [|x l IH]; simpl; auto.
  rewrite insert_sorted_perm. now constructor.
Qed.

Lemma insert_sorted_sorted (x : A) (l : list A) :
  StronglySorted (fun a b => leb a b = true) l ->
  StronglySorted (fun a b => leb a b = true) (insert_sorted leb x l).
Proof.
  induction 1 as [|y l Hs IH Hy]; simpl.
  - repeat constructor.
  - destruct (leb x y) eqn:E.
    + constructor; [now constructor|].
      constructor; auto.
      rewrite Forall_forall in *. intros z Hz. eauto.
    + assert (Hyx : leb y x = true)
        by (destruct (leb_total x y); congruence).
      constructor; auto.
      rewrite Forall_forall in *. intros z Hz.
      apply (Permutation_in _ (insert_sorted_perm x l)) in Hz.
      destruct Hz as [<-|Hz]; auto.
Qed.

Lemma stable_sort_sorted (l : list A) :
  StronglySorted (fun a b => leb a b = true) (stable_sort leb l).
Proof.
  induction l as [|x l IH]; simpl; [constructor|].
  now apply insert_sorted_sorted.
Qed.

(** Elements that tie with [a]. *)
Let ties (a x : A) : bool := leb a x && leb x a.

Lemma insert_sorted_ties (a x : A) (l : list A) :
  filter (ties a) (insert_sorted leb x l)
  = if ties a x then x :: filter (ties a) l else filter (ties a) l.
Proof.
  induction l as [|y l IH]; simpl.
  - now destruct (ties a x).
  - destruct (leb x y) eqn:E; simpl.
    + now destruct (ties a x).
    + rewrite IH. destruct (ties a x) eqn:Tx; auto.
      destruct (ties a y) eqn:Ty; auto.
      unfold ties in Tx, Ty.
      apply andb_true_iff in Tx as [_ Tx].
      apply andb_true_iff in Ty as [Ty _].
      rewrite (leb_trans _ _ _ Tx Ty) in E. discriminate.
Qed.

Lemma stable_sort_ties (a : A) (l : list A) :
  filter (ties a) (stable_sort leb l) = filter (ties a) l.
Proof.
  induction l as [|x l IH]; simpl; auto.
  rewrite insert_sorted_ties, IH. reflexivity.
Qed.
End StableSort.

Lemma insert_sorted_map {A B} (f : A -> B) (leb : B -> B -> bool) (x : A)
    (l : list A) :
  map f (insert_sorted (fun a b => leb (f a) (f b)) x l)
  = insert_sorted leb (f x) (map f l).
Proof.
  induction l as [|y l IH]; simpl; auto.
  destruct (leb (f x) (f y)); simpl; congruence.
Qed.

Lemma stable_sort_map {A B} (f : A -> B) (leb : B -> B -> bool)
    (l : list A) :
  map f (stable_sort (fun a b => leb (f a) (f b)) l)
  = stable_sort leb (map f l).
Proof.
  induction l as [|x l IH]; simpl; auto.
  now rewrite insert_sorted_map, IH.
Qed.

(** ** The order on cells and keys *)

Lemma string_compare_trans (s t u : string) :
  String.compare s t = Lt -> String.compare t u = Lt ->
  String.compare s u = Lt.
Proof.
  intros H1 H2.
  apply String_as_OT.cmp_lt in H1. apply String_as_OT.cmp_lt in H2.
  apply String_as_OT.cmp_lt. eapply String_as_OT.lt_trans; eassumption.
Qed.

Lemma string_compare_refl (s : string) : String.compare s s = Eq.
Proof. apply String_as_OT.cmp_eq. reflexivity. Qed.

Lemma bool_compare_antisym (x y : bool) :
  Bool.compare y x = CompOpp (Bool.compare x y).
Proof. now destruct x, y. Qed.

Lemma cell_compare_antisym (a b : cell) :
  cell_compare b a = CompOpp (cell_compare a b).
Proof.
  destruct a, b; cbn; try reflexivity.
  - apply String.compare_antisym.
  - apply Z.compare_antisym.
  - apply bool_compare_antisym.
  - apply Z.compare_antisym.
Qed.

Lemma cell_compare_eq (a b : cell) : cell_compare a b = Eq <-> a = b.
Proof.
  destruct a as [s|x|p|t|], b as [s'|x'|p'|t'|]; cbn; split; intros H;
    try discriminate; try reflexivity.
  - apply String.compare_eq_iff in H. now subst.
  - injection H as ->. apply string_compare_refl.
  - apply Z.compare_eq in H. now subst.
  - injection H as ->. apply Z.compare_refl.
  - destruct p, p'; cbn in H; congruence.
  - injection H as ->. now destruct p'.
  - apply Z.compare_eq in H. now subst.
  - injection H as ->. apply Z.compare_refl.
Qed.

Lemma cell_compare_trans (a b c : cell) :
  cell_compare a b = Lt -> cell_compare b c = Lt -> cell_compare a c = Lt.
Proof.
  destruct a as [s|x|p|t|], b as [s'|x'|p'|t'|], c as [s''|x''|p''|t''|];
    cbn; intros H1 H2; try discriminate; try reflexivity.
  - eapply string_compare_trans; eassumption.
  - rewrite Z.compare_lt_iff in *. lia.
  - destruct p, p', p''; cbn in *; congruence.
  - rewrite Z.compare_lt_iff in *. lia.
Qed.

Lemma keys_compare_antisym (k1 k2 : list cell) :
  keys_compare k2 k1 = CompOpp (keys_compare k1 k2).
Proof.
  revert k2. induction k1 as [|a k1 IH]; intros [|b k2]; cbn; auto.
  rewrite (cell_compare_antisym a b).
  destruct (cell_compare a b); cbn; auto.
Qed.

Lemma keys_compare_eq (k1 k2 : list cell) :
  keys_compare k1 k2 = Eq <-> k1 = k2.
Proof.
  revert k2. induction k1 as [|a k1 IH]; intros [|b k2]; cbn;
    split; intros H; try discriminate; try reflexivity.
  - destruct (cell_compare a b) eqn:E; try discriminate.
    apply cell_compare_eq in E. apply IH in H. now subst.
  - injection H as -> ->.
    rewrite (proj2 (cell_compare_eq b b) eq_refl). now apply IH.
Qed.

Lemma keys_compare_trans (k1 k2 k3 : list cell) :
  keys_compare k1 k2 = Lt -> keys_compare k2 k3 = Lt ->
  keys_compare k1 k3 = Lt.
Proof.
  revert k2 k3. induction k1 as [|a k1 IH]; intros [|b k2] [|c k3]; cbn;
    intros H1 H2; try discriminate; try reflexivity.
  destruct (cell_compare a b) eqn:E1; try discriminate.
  - apply cell_compare_eq in E1. subst b.
    destruct (cell_compare a c); try discriminate; auto.
    eapply IH; eassumption.
  - destruct (cell_compare b c) eqn:E2; try discriminate.
    + apply cell_compare_eq in E2. subst c. now rewrite E1.
    + now rewrite (cell_compare_trans _ _ _ E1 E2).
Qed.

Lemma keys_leb_total (k1 k2 : list cell) :
  keys_leb k1 k2 = true \/ keys_leb k2 k1 = true.
Proof.
  unfold keys_leb. rewrite (keys_compare_antisym k1 k2).
  destruct (keys_compare k1 k2); cbn; auto.
Qed.

Lemma keys_leb_trans (k1 k2 k3 : list cell) :
  keys_leb k1 k2 = true -> keys_leb k2 k3 = true -> keys_leb k1 k3 = true.
Proof.
  unfold keys_leb.
  destruct (keys_compare k1 k2) eqn:E1; try discriminate;
    destruct (keys_compare k2 k3) eqn:E2; try discriminate; intros _ _.
  - apply keys_compare_eq in E1, E2. subst.
    now rewrite (proj2 (keys_compare_eq k3 k3) eq_refl).
  - apply keys_compare_eq in E1. subst. now rewrite E2.
  - apply keys_compare_eq in E2. subst. now rewrite E1.
  - now rewrite (keys_compare_trans _ _ _ E1 E2).
Qed.

Lemma keys_ties_eq (k1 k2 : list cell) :
  keys_leb k1 k2 && keys_leb k2 k1 = cells_eqb k1 k2.
Proof.
  unfold keys_leb. rewrite (keys_compare_antisym k1 k2).
  destruct (cells_eqb k1 k2) eqn:E.
  - apply cells_eqb_eq in E. subst.
    now rewrite (proj2 (keys_compare_eq k2 k2) eq_refl).
  - destruct (keys_compare k1 k2) eqn:C; cbn; auto.
    apply keys_compare_eq in C. subst.
    rewrite (proj2 (cells_eqb_eq k2 k2) eq_refl) in E. discriminate.
Qed.

(** ** Reshaping *)

Lemma range_index_length (n : nat) : List.length (range_index n) = n.
Proof. unfold range_index. now rewrite length_map, length_seq. Qed.

Lemma with_range_index_cells (cs : list (list cell)) :
  map cells_of (with_range_index cs) = cs.
Proof.
  unfold with_range_index. rewrite <- (map_id cs) at 3.
  exact (map_combine_snd (fun x : list cell => x)
           (range_index (List.length cs)) cs
           (eq_sym (range_index_length (List.length cs)))).
Qed.

Lemma with_range_index_labels (cs : list (list cell)) :
  map fst (with_range_index cs) = range_index (List.length cs).
Proof.
  unfold with_range_index.
  rewrite <- (map_id (range_index (List.length cs))) at 2.
  exact (map_combine_fst (fun x : cell => x)
           (range_index (List.length cs)) cs
           (eq_sym (range_index_length (List.length cs)))).
Qed.

Lemma with_range_index_length (cs : list (list cell)) :
  List.length (with_range_index cs) = List.length cs.
Proof.
  rewrite <- (with_range_index_cells cs) at 2. now rewrite length_map.
Qed.

Lemma flat_map_cells {B} (g : list cell -> list B) (cs : list (list cell)) :
  flat_map (fun l => g (cells_of l)) (with_range_index cs) = flat_map g cs.
Proof.
  rewrite !flat_map_concat_map. f_equal.
  rewrite <- (with_range_index_cells cs) at 2. now rewrite map_map.
Qed.

Lemma combine_map_self {A B} (f : A -> B) (l : list A) :
  combine l (map f l) = map (fun x => (x, f x)) l.
Proof. induction l as [|a l IH]; simpl; congruence. Qed.

Lemma flat_map_map {A B C} (f : A -> B) (g : B -> list C) (l : list A) :
  flat_map g (map f l) = flat_map (fun x => g (f x)) l.
Proof. induction l as [|a l IH]; simpl; congruence. Qed.

Lemma filter_map_comm {A B} (p : B -> bool) (f : A -> B) (l : list A) :
  filter p (map f l) = map f (filter (fun x => p (f x)) l).
Proof.
  induction l as [|a l IH]; simpl; auto.
  destruct (p (f a)); simpl; congruence.
Qed.

Lemma positions_from_shift (n : nat) (c : string) (cols : list string) :
  positions_from n c cols = map (fun j => n + j) (positions_from 0 c cols).
Proof.
  revert n. induction cols as [|x cols IH]; intros n; simpl; auto.
  rewrite (IH (S n)), (IH 1).
  assert (E : map (fun j => S n + j) (positions_from 0 c cols)
              = map (fun j => n + j)
                  (map (fun j => 1 + j) (positions_from 0 c cols))).
  { rewrite map_map. apply map_ext. intros j. lia. }
  rewrite E. destruct (String.eqb x c); simpl; rewrite ?Nat.add_0_r;
    reflexivity.
Qed.

Lemma locate_after (front back : list string) (c : string) (j : nat) :
  ~ In c front -> positions_from 0 c back = [j] ->
  locate c (front ++ back) = Ok (List.length front + j).
Proof.
  intros Hn Hj. unfold locate, positions. rewrite positions_from_app.
  rewrite positions_from_notin by assumption. cbn [app].
  rewrite positions_from_shift, Hj. reflexivity.
Qed.

Lemma locate_before (front back : list string) (c : string) :
  NoDup front -> In c front -> positions_from 0 c back = [] ->
  locate c (front ++ back) = Ok (pos_of c front).
Proof.
  intros Hn Hin Hb. unfold locate, positions. rewrite positions_from_app.
  destruct (locate_ok front c Hn Hin) as (E & _). unfold positions in E.
  rewrite E, positions_from_shift, Hb. reflexivity.
Qed.

Lemma remove_nth_app {A} (l1 : list A) (x : A) (l2 : list A) :
  remove_nth (List.length l1) (l1 ++ x :: l2) = l1 ++ l2.
Proof.
  unfold remove_nth. induction l1 as [|a l1 IH]; [reflexivity|].
  cbn [List.length app firstn skipn]. cbn [skipn] in IH. now rewrite IH.
Qed.

(** What [sales_ok] and [calendar_ok] say. *)
Lemma sales_ok_spec (s : DataFrame) :
  sales_ok s = true ->
  NoDup (columns s)
  /\ In "item_id" (columns s)
  /\ ~ In "d" (columns s)
  /\ ~ In "sales" (columns s)
  /\ ~ In "date" (columns s).
Proof.
  unfold sales_ok. rewrite !andb_true_iff, !negb_true_iff.
  rewrite !has_label_not_In, has_label_In.
  intros (((((F & I) & D) & S) & T) & _).
  apply frame_ok_spec in F as [F _]. auto.
Qed.

Lemma calendar_ok_spec (c : DataFrame) :
  calendar_ok c = true ->
  NoDup (columns c)
  /\ In "d" (columns c)
  /\ In "date" (columns c)
  /\ text_column (column_cells c "d") = true.
Proof.
  unfold calendar_ok. rewrite !andb_true_iff, !has_label_In.
  intros ((((F & D) & T) & X) & _).
  apply frame_ok_spec in F as [F _]. auto.
Qed.

Lemma id_cols_spec (s : DataFrame) :
  sales_ok s = true ->
  NoDup (id_cols s)
  /\ (forall c, In c (id_cols s) -> In c (columns s))
  /\ In "item_id" (id_cols s)
  /\ ~ In "d" (id_cols s)
  /\ ~ In "sales" (id_cols s)
  /\ ~ In "date" (id_cols s).
Proof.
  intros H. apply sales_ok_spec in H as (Hn & Hi & Hd & Hs & Ht).
  assert (Sub : forall c, In c (id_cols s) -> In c (columns s)).
  { intros c Hc. unfold id_cols in Hc. now apply filter_In in Hc. }
  repeat split; auto.
  - unfold id_cols. now apply NoDup_filter.
  - unfold id_cols. apply filter_In. split; [assumption|reflexivity].
Qed.

Lemma day_cols_spec (s : DataFrame) :
  sales_ok s = true ->
  NoDup (day_cols s) /\ (forall c, In c (day_cols s) -> In c (columns s)).
Proof.
  intros H. apply sales_ok_spec in H as (Hn & _). split.
  - unfold day_cols. now apply NoDup_filter.
  - intros c Hc. unfold day_cols in Hc. now apply filter_In in Hc.
Qed.

Lemma melt_run (s : DataFrame) :
  sales_ok s = true ->
  melt s (id_cols s) (day_cols s) "d" "sales"
  = Ok (mkDataFrame (id_cols s ++ ["d"; "sales"])
                    (with_range_index (long_cells s))).
Proof.
  intros H.
  destruct (sales_ok_spec s H) as (Hn & _ & _ & Hs & _).
  destruct (id_cols_spec s H) as (_ & Hsub & _ & Hd & _).
  destruct (day_cols_spec s H) as (_ & Hday).
  unfold melt. apply has_label_not_In in Hs. rewrite Hs.
  rewrite (rmap_ok _ (fun c => pos_of c (columns s)) (id_cols s)).
  2:{ intros c Hc. now destruct (locate_ok (columns s) c Hn (Hsub c Hc))
        as (_ & E & _). }
  rewrite (rmap_ok _ (fun c => pos_of c (columns s)) (day_cols s)).
  2:{ intros c Hc. now destruct (locate_ok (columns s) c Hn (Hday c Hc))
        as (_ & E & _). }
  cbn [rbind]. do 3 f_equal. unfold long_cells.
  rewrite (combine_map_self _ (day_cols s)), (combine_map_self _ (id_cols s)).
  rewrite flat_map_map. apply flat_map_ext. intros v.
  apply map_ext. intros r. unfold long_row. cbn [fst snd]. f_equal.
  rewrite map_map. apply map_ext_in. intros c Hc.
  cbn [fst snd].
  destruct (String.eqb c "d") eqn:E; [|reflexivity].
  apply String.eqb_eq in E. subst. contradiction.
Qed.

Lemma select_dates (c : DataFrame) :
  calendar_ok c = true ->
  select c ["d"; "date"]
  = Ok (mkDataFrame ["d"; "date"]
          (map (fun r => (fst r, [cell_at c "d" r; cell_at c "date" r]))
               (rows c))).
Proof.
  intros H. destruct (calendar_ok_spec c H) as (Hn & Hd & Ht & _).
  rewrite select_single; [reflexivity|].
  intros x [<-|[<-|[]]].
  - destruct (locate_ok _ _ Hn Hd) as (E1 & _ & E2 & _). auto.
  - destruct (locate_ok _ _ Hn Ht) as (E1 & _ & E2 & _). auto.
Qed.

Lemma long_row_day (s : DataFrame) (v : string) (r : row) :
  nth (List.length (id_cols s)) (long_row s v r) CNA = CStr v.
Proof.
  unfold long_row. rewrite app_nth2; rewrite length_map; [|lia].
  now rewrite Nat.sub_diag.
Qed.

Lemma long_cells_day (s : DataFrame) (lc : list cell) :
  In lc (long_cells s) ->
  exists v r, In v (day_cols s) /\ In r (rows s) /\ lc = long_row s v r.
Proof.
  unfold long_cells. intros H. apply in_flat_map in H as (v & Hv & H).
  apply in_map_iff in H as (r & <- & Hr). eauto.
Qed.

Lemma keys_mergeable_text (lk rk : list cell) :
  text_column rk = true -> keys_mergeable lk rk = true.
Proof.
  intros H. unfold keys_mergeable. destruct lk; auto.
  destruct rk; auto. unfold text_column in H. rewrite H.
  now rewrite orb_true_r.
Qed.

Lemma joined_match (c : DataFrame) (lc : list cell) (fl : list row) :
  match map (fun r : row => (fst r, [cell_at c "d" r; cell_at c "date" r])) fl
  with
  | [] => [lc ++ map (fun _ : string => CNA) (remove_nth 0 ["d"; "date"])]
  | ms => map (fun r : row => lc ++ remove_nth 0 (cells_of r)) ms
  end
  = match map (cell_at c "date") fl with
    | [] => [lc ++ [CNA]]
    | ds => map (fun x => lc ++ [x]) ds
    end.
Proof.
  destruct fl as [|r0 rs]; [reflexivity|].
  cbn [map]. rewrite !map_map. reflexivity.
Qed.

Lemma merge_run (s c : DataFrame) :
  sales_ok s = true -> calendar_ok c = true ->
  merge_left
    (mkDataFrame (id_cols s ++ ["d"; "sales"])
                 (with_range_index (long_cells s)))
    (mkDataFrame ["d"; "date"]
       (map (fun r => (fst r, [cell_at c "d" r; cell_at c "date" r]))
            (rows c)))
    "d"
  = Ok (mkDataFrame (id_cols s ++ ["d"; "sales"; "date"])
                    (with_range_index (joined_cells s c))).
Proof.
  intros Hs Hc.
  destruct (id_cols_spec s Hs) as (_ & _ & _ & Hd & _ & Ht).
  destruct (calendar_ok_spec c Hc) as (_ & _ & _ & Htxt).
  unfold merge_left. cbn [columns rows].
  rewrite (locate_after (id_cols s) ["d"; "sales"] "d" 0 Hd eq_refl).
  rewrite Nat.add_0_r. cbn [rbind].
  change (locate "d" ["d"; "date"]) with (@Ok nat 0). cbn [rbind].
  rewrite keys_mergeable_text.
  2:{ rewrite map_map. exact Htxt. }
  f_equal. f_equal.
  - rewrite remove_nth_app. cbn [remove_nth firstn skipn app].
    rewrite map_app. rewrite <- app_assoc. f_equal.
    + rewrite <- (map_id (id_cols s)) at 2. apply map_ext_in.
      intros x Hx. cbn [has_label existsb].
      destruct (String.eqb x "date") eqn:E.
      * apply String.eqb_eq in E. subst. contradiction.
      * now rewrite andb_false_r.
    + cbn [map]. simpl (String.eqb "d" "d"). cbn [negb andb].
      simpl (has_label "sales" ["date"]). rewrite andb_false_r.
      cbn [app]. do 2 f_equal.
      assert (E : has_label "date" (id_cols s ++ ["sales"]) = false).
      { apply has_label_not_In. intros K. apply in_app_or in K as [K|K];
          [contradiction|]. destruct K as [K|[]]. discriminate. }
      now rewrite E.
  - f_equal. rewrite (flat_map_cells
      (fun lc => match filter (fun r => cell_eqb (cell_pos 0 r)
                                 (nth (List.length (id_cols s)) lc CNA))
                         (map (fun r => (fst r, [cell_at c "d" r;
                                                 cell_at c "date" r]))
                              (rows c))
                 with
                 | [] => [lc ++ map (fun _ => CNA)
                                  (remove_nth 0 ["d"; "date"])]
                 | ms => map (fun r => lc ++ remove_nth 0 (cells_of r)) ms
                 end)).
    unfold joined_cells. apply flat_map_ext. intros lc.
    unfold with_dates, dates_of. rewrite filter_map_comm.
    apply joined_match.
Qed.

Lemma sort_run (s : DataFrame) (jc : list (list cell)) :
  sales_ok s = true ->
  (r <- sort_values
          (mkDataFrame (id_cols s ++ ["d"; "sales"; "date"])
                       (with_range_index jc))
          ["item_id"; "date"] ;;
   Ok (reset_index r))%res
  = Ok (mkDataFrame (id_cols s ++ ["d"; "sales"; "date"])
          (with_range_index
             (stable_sort (fun a b => keys_leb (long_key s a) (long_key s b))
                          jc))).
Proof.
  intros Hs.
  destruct (id_cols_spec s Hs) as (Hn & _ & Hi & _ & _ & Ht).
  unfold sort_values. cbn [columns rows rmap].
  rewrite (locate_before (id_cols s) ["d"; "sales"; "date"] "item_id"
             Hn Hi eq_refl).
  rewrite (locate_after (id_cols s) ["d"; "sales"; "date"] "date" 2
             Ht eq_refl).
  cbn [rbind]. unfold reset_index. cbn [columns rows]. do 3 f_equal.
  rewrite <- (with_range_index_cells jc) at 2.
  apply (stable_sort_map cells_of
           (fun a b => keys_leb (long_key s a) (long_key s b))).
Qed.

(** On accepted tables [melt_sales_data] returns [long_frame] and writes
    its two log records. *)
Lemma melt_sales_data_run (s c : DataFrame) (w : World) :
  sales_ok s = true -> calendar_ok c = true ->
  melt_sales_data s c w
  = (Ok (long_frame s c),
     after w [LogInfo "Melting sales data from wide to long format...";
              LogInfoShape "Melted sales data:" (shape (long_frame s c))]).
Proof.
  intros Hs Hc. unfold melt_sales_data. cbv zeta.
  change (filter (fun col => negb (startswith col "d_")) (columns s))
    with (id_cols s).
  change (filter (fun col => startswith col "d_") (columns s))
    with (day_cols s).
  rewrite (melt_run s Hs), (select_dates c Hc).
  unfold bind at 1. unfold logger_info at 1, emit at 1.
  unfold bind at 1, lift at 1. unfold bind at 1, lift at 1.
  unfold bind at 1, lift at 1. rewrite (merge_run s c Hs Hc).
  pose proof (sort_run s (joined_cells s c) Hs) as E.
  destruct (sort_values _ _) as [r|e]; cbn [rbind] in E; [|discriminate].
  unfold bind, lift, ret, logger_info_shape, emit. cbn [files trace].
  remember (reset_index r) as out eqn:Eo. clear Eo.
  injection E as ->. unfold after, long_frame. cbn [files trace].
  rewrite <- app_assoc. reflexivity.
Qed.

(** ** The long frame *)

Lemma pos_of_front (front back : list string) (c : string) :
  NoDup front -> In c front -> positions_from 0 c back = [] ->
  pos_of c (front ++ back) = pos_of c front.
Proof.
  intros Hn Hin Hb. unfold pos_of, positions. rewrite positions_from_app.
  destruct (locate_ok front c Hn Hin) as (E & _). unfold positions in E.
  rewrite E. reflexivity.
Qed.

Lemma pos_of_back (front back : list string) (c : string) (j : nat) :
  ~ In c front -> positions_from 0 c back = [j] ->
  pos_of c (front ++ back) = List.length front + j.
Proof.
  intros Hn Hj. unfold pos_of, positions. rewrite positions_from_app.
  rewrite positions_from_notin by assumption. cbn [app].
  rewrite positions_from_shift, Hj. reflexivity.
Qed.

Lemma long_frame_positions (s c : DataFrame) :
  sales_ok s = true ->
  pos_of "item_id" (columns (long_frame s c)) = pos_of "item_id" (id_cols s)
  /\ pos_of "d" (columns (long_frame s c)) = List.length (id_cols s)
  /\ pos_of "sales" (columns (long_frame s c)) = List.length (id_cols s) + 1
  /\ pos_of "date" (columns (long_frame s c)) = List.length (id_cols s) + 2.
Proof.
  intros Hs. destruct (id_cols_spec s Hs) as (Hn & _ & Hi & Hd & Hsl & Ht).
  cbn [long_frame columns]. repeat split.
  - now apply pos_of_front.
  - rewrite (pos_of_back _ _ "d" 0); auto.
  - now apply pos_of_back.
  - now apply pos_of_back.
Qed.

Lemma long_row_id (s : DataFrame) (v : string) (r : row) (x : cell)
    (c : string) :
  NoDup (id_cols s) -> In c (id_cols s) ->
  nth (pos_of c (id_cols s)) (long_row s v r ++ [x]) CNA = cell_at s c r.
Proof.
  intros Hn Hin. destruct (locate_ok _ _ Hn Hin) as (_ & _ & E & L).
  unfold long_row. rewrite <- app_assoc.
  rewrite app_nth1 by now rewrite length_map.
  rewrite (nth_indep _ CNA (cell_at s "" r)) by now rewrite length_map.
  rewrite (map_nth (fun c => cell_at s c r)). now rewrite E.
Qed.

Lemma long_row_tail (s : DataFrame) (v : string) (r : row) (x : cell) :
  nth (List.length (id_cols s)) (long_row s v r ++ [x]) CNA = CStr v
  /\ nth (List.length (id_cols s) + 1) (long_row s v r ++ [x]) CNA
     = cell_at s v r
  /\ nth (List.length (id_cols s) + 2) (long_row s v r ++ [x]) CNA = x.
Proof.
  unfold long_row. rewrite <- app_assoc. repeat split.
  - rewrite app_nth2; rewrite length_map; [|lia]. now rewrite Nat.sub_diag.
  - rewrite app_nth2; rewrite length_map; [|lia].
    now replace (List.length (id_cols s) + 1 - List.length (id_cols s))
      with 1 by lia.
  - rewrite app_nth2; rewrite length_map; [|lia].
    now replace (List.length (id_cols s) + 2 - List.length (id_cols s))
      with 2 by lia.
Qed.

Lemma with_dates_In (c : DataFrame) (d : cell) (lc jc : list cell) :
  In jc (with_dates c d lc) <->
  exists x, jc = lc ++ [x]
            /\ (In x (dates_of c d) \/ (dates_of c d = [] /\ x = CNA)).
Proof.
  unfold with_dates. destruct (dates_of c d) as [|x0 ds] eqn:E.
  - split.
    + intros [<-|[]]. exists CNA. auto.
    + intros (x & -> & [[]|[_ ->]]). now left.
  - rewrite in_map_iff. split.
    + intros (x & <- & Hx). exists x. auto.
    + intros (x & -> & [Hx|[K _]]); [eauto | discriminate].
Qed.

Lemma joined_cells_In (s c : DataFrame) (jc : list cell) :
  In jc (joined_cells s c) <->
  exists v r x,
    In v (day_cols s) /\ In r (rows s) /\ jc = long_row s v r ++ [x]
    /\ (In x (dates_of c (CStr v))
        \/ (dates_of c (CStr v) = [] /\ x = CNA)).
Proof.
  unfold joined_cells. rewrite in_flat_map. split.
  - intros (lc & Hlc & H). apply long_cells_day in Hlc as (v & r & Hv & Hr & ->).
    rewrite long_row_day in H. apply with_dates_In in H as (x & -> & Hx).
    exists v, r, x. auto.
  - intros (v & r & x & Hv & Hr & -> & Hx). exists (long_row s v r). split.
    + unfold long_cells. apply in_flat_map. exists v. split; auto.
      now apply in_map.
    + rewrite long_row_day. apply with_dates_In. eauto.
Qed.

Lemma dates_of_In (c : DataFrame) (d x : cell) :
  In x (dates_of c d) -> In d (column_cells c "d").
Proof.
  unfold dates_of, column_cells. intros H.
  apply in_map_iff in H as (r & _ & Hr). apply filter_In in Hr as [Hr E].
  apply cell_eqb_eq in E. subst. now apply in_map.
Qed.

Lemma long_frame_rows (s c : DataFrame) (r : row) :
  In r (rows (long_frame s c)) -> In (cells_of r) (joined_cells s c).
Proof.
  intros H. cbn [long_frame rows] in H.
  apply (in_map cells_of) in H. rewrite with_range_index_cells in H.
  eapply Permutation_in; [apply stable_sort_perm|exact H].
Qed.

Lemma long_frame_has (s c : DataFrame) (jc : list cell) :
  In jc (joined_cells s c) ->
  exists r, In r (rows (long_frame s c)) /\ cells_of r = jc.
Proof.
  intros H. cbn [long_frame rows].
  assert (K : In jc (map cells_of
                (with_range_index
                   (stable_sort
                      (fun a b => keys_leb (long_key s a) (long_key s b))
                      (joined_cells s c))))).
  { rewrite with_range_index_cells.
    eapply Permutation_in; [apply Permutation_sym, stable_sort_perm|exact H]. }
  apply in_map_iff in K as (r & E & Hr). eauto.
Qed.

Lemma long_frame_cell_at (s c : DataFrame) (r : row) :
  sales_ok s = true ->
  cell_at (long_frame s c) "item_id" r
  = nth (pos_of "item_id" (id_cols s)) (cells_of r) CNA
  /\ cell_at (long_frame s c) "d" r
     = nth (List.length (id_cols s)) (cells_of r) CNA
  /\ cell_at (long_frame s c) "sales" r
     = nth (List.length (id_cols s) + 1) (cells_of r) CNA
  /\ cell_at (long_frame s c) "date" r
     = nth (List.length (id_cols s) + 2) (cells_of r) CNA.
Proof.
  intros Hs. destruct (long_frame_positions s c Hs) as (E1 & E2 & E3 & E4).
  unfold cell_at, cell_pos. now rewrite E1, E2, E3, E4.
Qed.

(** C5.  On a sales table with an [item_id] column and a calendar with a
    text column [d] and a column [date], [melt_sales_data] returns, whether
    or not the day columns have a calendar row.  The join is a left join:
    every pair of a sales row and a day column has a row in the result, and
    a result row whose day label is no calendar key has a missing date. *)
Theorem melt_sales_data_left_join (s c : DataFrame) :
  sales_ok s = true -> calendar_ok c = true ->
  exists out,
    (forall w, exists w', melt_sales_data s c w = (Ok out, w'))
    /\ (forall r0 v, In r0 (rows s) -> In v (day_cols s) ->
          exists r x, In r (rows out)
            /\ cells_of r = long_row s v r0 ++ [x]
            /\ (~ In (CStr v) (column_cells c "d") -> x = CNA))
    /\ (forall r, In r (rows out) ->
          ~ In (cell_at out "d" r) (column_cells c "d") ->
          cell_at out "date" r = CNA).
Proof.
  intros Hs Hc. exists (long_frame s c). split; [|split].
  - intros w. eexists. now apply melt_sales_data_run.
  - intros r0 v Hr Hv.
    destruct (dates_of c (CStr v)) as [|x ds] eqn:E.
    + destruct (long_frame_has s c (long_row s v r0 ++ [CNA]))
        as (r & Hin & Er).
      { apply joined_cells_In. exists v, r0, CNA. auto 6. }
      exists r, CNA. auto.
    + destruct (long_frame_has s c (long_row s v r0 ++ [x]))
        as (r & Hin & Er).
      { apply joined_cells_In. exists v, r0, x. rewrite E.
        repeat split; auto. left. now left. }
      exists r, x. repeat split; auto.
      intros K. contradiction K. apply (dates_of_In c (CStr v) x).
      rewrite E. now left.
  - intros r Hr Hk.
    destruct (long_frame_cell_at s c r Hs) as (_ & Ed & _ & Et).
    rewrite Ed in Hk. rewrite Et.
    apply long_frame_rows in Hr.
    apply joined_cells_In in Hr as (v & r0 & x & _ & _ & E & Hx).
    rewrite E in *.
    destruct (long_row_tail s v r0 x) as (T1 & _ & T3).
    rewrite T1 in Hk. rewrite T3.
    destruct Hx as [Hx|[_ ->]]; [|reflexivity].
    contradiction Hk. eapply dates_of_In. eassumption.
Qed.

Lemma melt_sales_data_left_join_witness :
  exists out,
    (forall w, exists w',
        melt_sales_data sales_file calendar_two_days w = (Ok out, w'))
    /\ (forall r, In r (rows out) ->
          ~ In (cell_at out "d" r) (column_cells calendar_two_days "d") ->
          cell_at out "date" r = CNA).
Proof.
  destruct (melt_sales_data_left_join sales_file calendar_two_days
              eq_refl eq_refl) as (out & H1 & _ & H3).
  exists out. split; assumption.
Defined.

Lemma StronglySorted_map {A B} (f : A -> B) (R : B -> B -> Prop)
    (l : list A) :
  StronglySorted R (map f l) ->
  StronglySorted (fun a b => R (f a) (f b)) l.
Proof.
  induction l as [|a l IH]; intros H; [constructor|].
  cbn [map] in H. inversion H as [|? ? Hs Hf]; subst.
  constructor; auto. rewrite Forall_forall in *. intros x Hx.
  apply Hf. now apply in_map.
Qed.

Lemma StronglySorted_impl {A} (R R' : A -> A -> Prop) (l : list A) :
  (forall a b, R a b -> R' a b) ->
  StronglySorted R l -> StronglySorted R' l.
Proof.
  intros H. induction 1 as [|a l Hs IH Hf]; constructor; auto.
  rewrite Forall_forall in *. auto.
Qed.

Lemma long_frame_key (s c : DataFrame) (r : row) :
  sales_ok s = true ->
  item_date_key (long_frame s c) r = long_key s (cells_of r).
Proof.
  intros Hs. destruct (long_frame_cell_at s c r Hs) as (E1 & _ & _ & E4).
  unfold item_date_key, long_key. now rewrite E1, E4.
Qed.

Lemma tied_cells (df : DataFrame) (r0 : row)
    (key : list cell -> list cell) :
  (forall r, item_date_key df r = key (cells_of r)) ->
  tied df r0
  = filter (fun cs => cells_eqb (key (cells_of r0)) (key cs))
           (map cells_of (rows df)).
Proof.
  intros H. unfold tied. rewrite filter_map_comm. f_equal.
  apply filter_ext. intros r. now rewrite !H.
Qed.

(** C2.  On accepted tables [melt_sales_data] returns the same frame from
    every world.  Its rows are in ascending order of item then date
    (missing values last), their index is 0, 1, 2, ..., they are the rows
    of the joined frame in another order, and the rows that tie with a row
    on item and date stand in the order they had in the joined frame. *)
Theorem melt_sales_data_sorted (s c : DataFrame) :
  sales_ok s = true -> calendar_ok c = true ->
  exists out melted dates joined,
    (forall w, exists w', melt_sales_data s c w = (Ok out, w'))
    /\ melt s (id_cols s) (day_cols s) "d" "sales" = Ok melted
    /\ select c ["d"; "date"] = Ok dates
    /\ merge_left melted dates "d" = Ok joined
    /\ StronglySorted
         (fun r1 r2 => keys_leb (item_date_key out r1) (item_date_key out r2)
                       = true)
         (rows out)
    /\ map fst (rows out) = range_index (List.length (rows out))
    /\ Permutation (map cells_of (rows out)) (map cells_of (rows joined))
    /\ (forall r0, tied out r0 = tied joined r0).
Proof.
  intros Hs Hc.
  exists (long_frame s c). eexists. eexists. eexists.
  split; [|split; [|split; [|split]]].
  - intros w. eexists. now apply melt_sales_data_run.
  - now apply melt_run.
  - now apply select_dates.
  - now apply merge_run.
  - assert (K : forall r, item_date_key (long_frame s c) r
                          = long_key s (cells_of r))
      by (intros r; now apply long_frame_key).
    split; [|split; [|split]].
    + apply (StronglySorted_impl
               (fun a b => keys_leb (long_key s (cells_of a))
                                    (long_key s (cells_of b)) = true)).
      { intros a b. now rewrite !K. }
      apply (StronglySorted_map cells_of
               (fun a b => keys_leb (long_key s a) (long_key s b) = true)).
      cbn [long_frame rows]. rewrite with_range_index_cells.
      apply (stable_sort_sorted
               (fun a b => keys_leb (long_key s a) (long_key s b))).
      * intros x y. apply keys_leb_total.
      * intros x y z. apply keys_leb_trans.
    + cbn [long_frame rows].
      now rewrite with_range_index_labels, with_range_index_length.
    + cbn [long_frame rows]. rewrite !with_range_index_cells.
      apply stable_sort_perm.
    + intros r0.
      rewrite (tied_cells (long_frame s c) r0 (long_key s) K).
      rewrite (tied_cells _ r0 (long_key s)).
      2:{ intros r. apply (long_frame_key s c r Hs). }
      cbn [long_frame rows]. rewrite !with_range_index_cells.
      rewrite (filter_ext _
                 (fun x => keys_leb (long_key s (cells_of r0)) (long_key s x)
                           && keys_leb (long_key s x)
                                (long_key s (cells_of r0)))).
      2:{ intros a. symmetry. apply keys_ties_eq. }
      rewrite (stable_sort_ties
                 (fun a b => keys_leb (long_key s a) (long_key s b))).
      2:{ intros x y z. apply keys_leb_trans. }
      apply filter_ext. intros a. apply keys_ties_eq.
Qed.

Lemma melt_sales_data_sorted_witness :
  exists out,
    (forall w, exists w',
        melt_sales_data sales_file calendar_two_days w = (Ok out, w'))
    /\ StronglySorted
         (fun r1 r2 => keys_leb (item_date_key out r1) (item_date_key out r2)
                       = true)
         (rows out)
    /\ map fst (rows out) = range_index (List.length (rows out)).
Proof.
  destruct (melt_sales_data_sorted sales_file calendar_two_days
              eq_refl eq_refl)
    as (out & _ & _ & _ & H1 & _ & _ & _ & H5 & H6 & _).
  exists out. repeat split; assumption.
Defined.

(** ** Calendars with distinct day labels *)

Lemma cell_eq_dec (a b : cell) : {a = b} + {a <> b}.
Proof.
  destruct (cell_eqb a b) eqn:E.
  - left. now apply cell_eqb_eq.
  - right. now apply cell_eqb_neq.
Qed.

Lemma filter_key_nil {A} (k : A -> cell) (d : cell) (l : list A) :
  ~ In d (map k l) -> filter (fun x => cell_eqb (k x) d) l = [].
Proof.
  induction l as [|a l IH]; intros H; cbn; auto.
  destruct (cell_eqb (k a) d) eqn:E.
  - apply cell_eqb_eq in E. contradiction H. now left.
  - apply IH. intros K. apply H. now right.
Qed.

Lemma filter_key_unique {A} (k : A -> cell) (a : A) (l : list A) :
  NoDup (map k l) -> In a l ->
  filter (fun x => cell_eqb (k x) (k a)) l = [a].
Proof.
  induction l as [|b l IH]; intros Hn Hin; [contradiction|].
  cbn [map] in Hn. inversion Hn as [|? ? Hb Hn']; subst. cbn [filter].
  destruct Hin as [->|Hin].
  - rewrite cell_eqb_refl. f_equal. now apply filter_key_nil.
  - destruct (cell_eqb (k b) (k a)) eqn:E.
    + apply cell_eqb_eq in E. contradiction Hb. rewrite E. now apply in_map.
    + now apply IH.
Qed.

Lemma filter_key_short {A} (k : A -> cell) (d : cell) (l : list A) :
  NoDup (map k l) ->
  filter (fun x => cell_eqb (k x) d) l = []
  \/ exists a, filter (fun x => cell_eqb (k x) d) l = [a].
Proof.
  intros Hn. destruct (in_dec cell_eq_dec d (map k l))
    as [Hin|Hin].
  - right. apply in_map_iff in Hin as (a & <- & Ha). exists a.
    now apply filter_key_unique.
  - left. now apply filter_key_nil.
Qed.

Lemma with_dates_unique (c : DataFrame) (d : cell) (lc : list cell) :
  NoDup (column_cells c "d") ->
  with_dates c d lc = [lc ++ [date_or_na c d]].
Proof.
  intros Hn. unfold with_dates, date_or_na, dates_of.
  destruct (filter_key_short (cell_at c "d") d (rows c) Hn) as [->|[a ->]];
    reflexivity.
Qed.

Lemma flat_map_singleton {A B} (f : A -> B) (l : list A) :
  flat_map (fun x => [f x]) l = map f l.
Proof. induction l as [|a l IH]; cbn; congruence. Qed.

Lemma joined_cells_unique (s c : DataFrame) :
  NoDup (column_cells c "d") ->
  joined_cells s c
  = map (fun lc => lc ++ [date_or_na c (nth (List.length (id_cols s)) lc CNA)])
        (long_cells s).
Proof.
  intros Hn. unfold joined_cells. rewrite <- flat_map_singleton.
  apply flat_map_ext. intros lc. now apply with_dates_unique.
Qed.

Lemma long_cells_length (s : DataFrame) :
  List.length (long_cells s)
  = List.length (rows s) * List.length (day_cols s).
Proof.
  unfold long_cells. induction (day_cols s) as [|v l IH]; cbn.
  - lia.
  - rewrite length_app, length_map, IH. lia.
Qed.

Lemma long_frame_project (s c : DataFrame) (r : row) :
  sales_ok s = true -> In r (rows (long_frame s c)) ->
  map (fun l => cell_at (long_frame s c) l r) (id_cols s ++ ["d"; "sales"])
  = removelast (cells_of r).
Proof.
  intros Hs Hr.
  destruct (id_cols_spec s Hs) as (Hn & _ & _ & Hd & Hsl & Ht).
  destruct (long_frame_cell_at s c r Hs) as (_ & E2 & E3 & _).
  apply long_frame_rows, joined_cells_In in Hr
    as (v & r0 & x & _ & _ & E & _).
  rewrite map_app. cbn [map]. rewrite E2, E3, E.
  destruct (long_row_tail s v r0 x) as (-> & -> & _).
  rewrite removelast_last. unfold long_row. f_equal.
  apply map_ext_in. intros l Hl. unfold cell_at at 1, cell_pos.
  cbn [long_frame columns]. rewrite pos_of_front; auto.
  - rewrite E. now apply long_row_id.
  - apply positions_from_notin. intros [<-|[<-|[<-|[]]]]; contradiction.
Qed.

(** C1 (amended).  On accepted tables whose calendar lists no day label
    twice, the result of [melt_sales_data] has one row per pair of a sales
    row and a day column: its row count is the product of the two counts,
    and its rows, read on the identifier columns, [d] and [sales], are the
    long rows of the pairs, each once, in some order. *)
Theorem melt_sales_data_row_count (s c : DataFrame) :
  sales_ok s = true -> calendar_ok c = true ->
  NoDup (column_cells c "d") ->
  exists out,
    (forall w, exists w', melt_sales_data s c w = (Ok out, w'))
    /\ List.length (rows out)
       = List.length (rows s) * List.length (day_cols s)
    /\ Permutation
         (map (fun r => map (fun l => cell_at out l r)
                            (id_cols s ++ ["d"; "sales"]))
              (rows out))
         (long_cells s).
Proof.
  intros Hs Hc Hn. exists (long_frame s c). split; [|split].
  - intros w. eexists. now apply melt_sales_data_run.
  - cbn [long_frame rows]. rewrite with_range_index_length.
    rewrite (Permutation_length (stable_sort_perm _ _)).
    rewrite (joined_cells_unique s c Hn), length_map.
    apply long_cells_length.
  - rewrite (map_ext_in _ (fun r => removelast (cells_of r))).
    2:{ intros r Hr. now apply long_frame_project. }
    rewrite <- (map_map cells_of (@removelast cell)).
    cbn [long_frame rows]. rewrite with_range_index_cells.
    rewrite (Permutation_map (@removelast cell) (stable_sort_perm _ _)).
    rewrite (joined_cells_unique s c Hn), map_map.
    rewrite (map_ext _ (fun lc => lc)), map_id; [reflexivity|].
    intros lc. apply removelast_last.
Qed.

Lemma melt_sales_data_row_count_witness :
  exists out,
    (forall w, exists w',
        melt_sales_data sales_file calendar_two_days w = (Ok out, w'))
    /\ List.length (rows out)
       = List.length (rows sales_file) * List.length (day_cols sales_file).
Proof.
  destruct (melt_sales_data_row_count sales_file calendar_two_days
              eq_refl eq_refl) as (out & H1 & H2 & _).
  - apply (NoDup_map_inv (fun a => match a with CStr x => x | _ => "" end)).
    apply nodupb_NoDup. reflexivity.
  - exists out. split; assumption.
Defined.

(** C1, as stated, fails: a calendar that lists a day twice doubles the
    rows of that day. *)
Lemma melt_sales_data_row_count_day_twice :
  sales_ok sales_two_stores = true
  /\ calendar_ok calendar_day_twice = true
  /\ exists out w',
       melt_sales_data sales_two_stores calendar_day_twice empty_world
       = (Ok out, w')
       /\ List.length (rows out) = 4
       /\ List.length (rows sales_two_stores)
          * List.length (day_cols sales_two_stores) = 2.
Proof.
  split; [reflexivity|]. split; [reflexivity|].
  eexists. eexists. split; [vm_compute; reflexivity|].
  split; reflexivity.
Qed.

(** ** Grouping the long rows back *)

Lemma Permutation_filter {A} (p : A -> bool) (l l' : list A) :
  Permutation l l' -> Permutation (filter p l) (filter p l').
Proof.
  induction 1 as [|x l l' H IH|x y l|l l' l'' H1 IH1 H2 IH2]; cbn.
  - constructor.
  - destruct (p x); auto.
  - destruct (p x), (p y); auto. apply perm_swap.
  - eapply Permutation_trans; eassumption.
Qed.

Lemma filter_flat_map {A B} (p : B -> bool) (f : A -> list B) (l : list A) :
  filter p (flat_map f l) = flat_map (fun x => filter p (f x)) l.
Proof.
  induction l as [|a l IH]; cbn; auto.
  now rewrite filter_app, IH.
Qed.

Lemma map_flat_map_comm {A B C} (g : B -> C) (f : A -> list B)
    (l : list A) :
  map g (flat_map f l) = flat_map (fun x => map g (f x)) l.
Proof.
  induction l as [|a l IH]; cbn; auto.
  now rewrite map_app, IH.
Qed.

Lemma flat_map_nil {A B} (f : A -> list B) (l : list A) :
  (forall x, In x l -> f x = []) -> flat_map f l = [].
Proof.
  induction l as [|a l IH]; intros H; cbn; auto.
  rewrite (H a) by now left. apply IH. intros x Hx. apply H. now right.
Qed.

Lemma flat_map_unique {B} (f : string -> list B) (a : string)
    (l : list string) :
  NoDup l -> In a l -> (forall x, In x l -> x <> a -> f x = []) ->
  flat_map f l = f a.
Proof.
  induction l as [|b l IH]; intros Hn Hin Hf; [contradiction|].
  inversion Hn as [|? ? Hb Hn']; subst. cbn [flat_map].
  destruct Hin as [->|Hin].
  - rewrite (flat_map_nil f l), app_nil_r; [reflexivity|].
    intros x Hx. apply Hf; [now right|]. intros ->. contradiction.
  - rewrite (Hf b); [|now left|].
    + cbn. apply IH; auto. intros x Hx. apply Hf. now right.
    + intros ->. contradiction.
Qed.

Lemma filter_none {A} (p : A -> bool) (l : list A) :
  (forall x, In x l -> p x = false) -> filter p l = [].
Proof.
  induction l as [|a l IH]; intros H; cbn; auto.
  rewrite (H a) by now left. apply IH. intros x Hx. apply H. now right.
Qed.

Lemma joined_group (s c : DataFrame) (r0 : row) (v : string) :
  sales_ok s = true ->
  NoDup (column_cells c "d") -> NoDup (column_cells s "item_id") ->
  In r0 (rows s) -> In v (day_cols s) ->
  filter (fun cs =>
            cell_eqb (nth (pos_of "item_id" (id_cols s)) cs CNA)
                     (cell_at s "item_id" r0)
            && cell_eqb (nth (List.length (id_cols s)) cs CNA) (CStr v))
         (joined_cells s c)
  = [long_row s v r0 ++ [date_or_na c (CStr v)]].
Proof.
  intros Hs Hk Hi Hr Hv.
  destruct (id_cols_spec s Hs) as (Hn & _ & Hitem & _).
  destruct (day_cols_spec s Hs) as (Hdn & _).
  rewrite (joined_cells_unique s c Hk). unfold long_cells.
  rewrite map_flat_map_comm, filter_flat_map.
  rewrite (flat_map_unique _ v (day_cols s) Hdn Hv).
  - rewrite map_map, filter_map_comm.
    rewrite (filter_ext _ (fun r => cell_eqb (cell_at s "item_id" r)
                                             (cell_at s "item_id" r0))).
    + rewrite (filter_key_unique (cell_at s "item_id") r0 (rows s) Hi Hr).
      cbn [map]. now rewrite long_row_day.
    + intros r. rewrite (long_row_id s v r _ "item_id" Hn Hitem).
      destruct (long_row_tail s v r
                  (date_or_na c (nth (List.length (id_cols s))
                                     (long_row s v r) CNA))) as (-> & _).
      now rewrite cell_eqb_refl, andb_true_r.
  - intros v' Hv' Hne. apply filter_none. intros cs Hcs.
    rewrite map_map in Hcs. apply in_map_iff in Hcs as (r & <- & _).
    destruct (long_row_tail s v' r
                (date_or_na c (nth (List.length (id_cols s))
                                   (long_row s v' r) CNA))) as (-> & _).
    apply andb_false_iff. right. apply cell_eqb_neq. congruence.
Qed.

(** C4 (amended).  On accepted tables whose calendar lists no day label
    twice and whose sales table lists no item twice, the [sales] cells of
    the result of [melt_sales_data] for an item and a day column are the
    one cell the sales table holds for them; so their sum is that cell's
    value. *)
Theorem melt_sales_data_round_trip (s c : DataFrame) :
  sales_ok s = true -> calendar_ok c = true ->
  NoDup (column_cells c "d") -> NoDup (column_cells s "item_id") ->
  exists out,
    (forall w, exists w', melt_sales_data s c w = (Ok out, w'))
    /\ forall r0 v, In r0 (rows s) -> In v (day_cols s) ->
         group_sales out (cell_at s "item_id" r0) v = [cell_at s v r0]
         /\ forall z, cell_at s v r0 = CInt z ->
              sum_cells (group_sales out (cell_at s "item_id" r0) v) = z.
Proof.
  intros Hs Hc Hk Hi. exists (long_frame s c). split.
  - intros w. eexists. now apply melt_sales_data_run.
  - intros r0 v Hr Hv.
    assert (G : group_sales (long_frame s c) (cell_at s "item_id" r0) v
                = [cell_at s v r0]).
    { transitivity
        (map (fun cs => nth (List.length (id_cols s) + 1) cs CNA)
           (filter (fun cs =>
                      cell_eqb (nth (pos_of "item_id" (id_cols s)) cs CNA)
                               (cell_at s "item_id" r0)
                      && cell_eqb (nth (List.length (id_cols s)) cs CNA)
                                  (CStr v))
                   (map cells_of (rows (long_frame s c))))).
      { unfold group_sales. rewrite filter_map_comm, map_map.
        rewrite (filter_ext
          (fun r => cell_eqb (cell_at (long_frame s c) "item_id" r)
                             (cell_at s "item_id" r0)
                    && cell_eqb (cell_at (long_frame s c) "d" r) (CStr v))
          (fun r => cell_eqb (nth (pos_of "item_id" (id_cols s))
                                  (cells_of r) CNA)
                             (cell_at s "item_id" r0)
                    && cell_eqb (nth (List.length (id_cols s))
                                     (cells_of r) CNA) (CStr v))).
        - apply map_ext. intros r.
          now destruct (long_frame_cell_at s c r Hs) as (_ & _ & -> & _).
        - intros r.
          now destruct (long_frame_cell_at s c r Hs) as (-> & -> & _). }
      cbn [long_frame rows]. rewrite with_range_index_cells.
      pose proof (Permutation_filter
                    (fun cs =>
                       cell_eqb (nth (pos_of "item_id" (id_cols s)) cs CNA)
                                (cell_at s "item_id" r0)
                       && cell_eqb (nth (List.length (id_cols s)) cs CNA)
                                   (CStr v))
                    _ _ (stable_sort_perm
                           (fun a b => keys_leb (long_key s a) (long_key s b))
                           (joined_cells s c))) as P.
      rewrite (joined_group s c r0 v Hs Hk Hi Hr Hv) in P.
      apply Permutation_sym, Permutation_length_1_inv in P. rewrite P.
      cbn [map]. now destruct (long_row_tail s v r0 (date_or_na c (CStr v)))
        as (_ & -> & _). }
    split; [exact G|]. intros z Hz. rewrite G, Hz. cbn. lia.
Qed.

Lemma melt_sales_data_round_trip_witness :
  exists out,
    (forall w, exists w',
        melt_sales_data sales_file calendar_two_days w = (Ok out, w'))
    /\ forall r0 v, In r0 (rows sales_file) -> In v (day_cols sales_file) ->
         group_sales out (cell_at sales_file "item_id" r0) v
         = [cell_at sales_file v r0].
Proof.
  destruct (melt_sales_data_round_trip sales_file calendar_two_days
              eq_refl eq_refl) as (out & H1 & H2).
  - apply (NoDup_map_inv (fun a => match a with CStr x => x | _ => "" end)).
    apply nodupb_NoDup. reflexivity.
  - apply (NoDup_map_inv (fun a => match a with CStr x => x | _ => "" end)).
    apply nodupb_NoDup. reflexivity.
  - exists out. split; [exact H1|].
    intros r0 v Hr Hv. now apply H2.
Defined.

(** C4, as stated, fails: with an item sold in two stores the sum over
    item and day adds the two stores' cells. *)
Lemma melt_sales_data_round_trip_two_stores :
  sales_ok sales_two_stores = true
  /\ calendar_ok calendar_two_days = true
  /\ exists out w' r0,
       melt_sales_data sales_two_stores calendar_two_days empty_world
       = (Ok out, w')
       /\ In r0 (rows sales_two_stores)
       /\ cell_at sales_two_stores "d_1" r0 = CInt 5
       /\ group_sales out (cell_at sales_two_stores "item_id" r0) "d_1"
          = [CInt 5; CInt 3]
       /\ sum_cells (group_sales out (cell_at sales_two_stores "item_id" r0)
                                 "d_1") = 8%Z.
Proof.
  split; [reflexivity|]. split; [reflexivity|].
  eexists. eexists.
  exists (CInt 0, [CStr "I1_S1"; CStr "I1"; CStr "S1"; CInt 5]).
  split; [vm_compute; reflexivity|].
  split; [now left|]. repeat split.
Qed.
